(** * run_simulations.py: the parallel Contam batch runner

    A shallow embedding of [ContamPythonParallel/run_simulations.py].

    The script is a thin orchestration layer over the operating system:
    it tests paths for existence, reads the clock, launches one child
    process per simulation file, writes one artifact file per job and
    appends lines to a log.  The embedding therefore threads an explicit
    [State] (file system, log, clock reads, launched commands) through a
    small monad whose outcomes are a normal return, a raised [Exception]
    or [SystemExit].  Everything the environment decides (what the child
    process does, which file operations fail, what the clock says, in
    which order the pool's workers finish) is read from an [Env] record,
    so every theorem quantifies over all environments.

    Conventions.
    - [os.path.basename] and [os.path.join] belong to the platform, as do
      floating-point subtraction and the [:.2f] format; they are the
      interface [Platform].  A POSIX instance is given for evaluation.
    - Exceptions raised by library calls ([subprocess.run], [open],
      [write], [os.makedirs]) are instances of Python's [Exception];
      [SystemExit] is a separate outcome, which [except Exception] does
      not catch.  Asynchronous signals (KeyboardInterrupt) are outside
      this sequential model.
    - Log records keep level and message; the timestamp prefix added by
      the formatter is not modelled. *)

From stdpp Require Import base list gmap strings pretty.
From Stdlib Require Import ZArith Lia Ascii.

Open Scope string_scope.
Open Scope Z_scope.

(** ** Strings as Python uses them here *)

(** [old] is a prefix of [s]. *)
Fixpoint startswith (old s : string) : bool :=
  match old, s with
  | EmptyString, _ => true
  | String a old', String b s' => if decide (a = b) then startswith old' s' else false
  | String _ _, EmptyString => false
  end.

(** [sub in s]: substring test. *)
Fixpoint contains (sub s : string) : bool :=
  startswith sub s ||
  match s with
  | EmptyString => false
  | String _ s' => contains sub s'
  end.

(** [s.replace(old, new)] for a non-empty [old]: the occurrences of [old]
    are found left to right, without overlap, and each is replaced.
    [skip] counts the characters of the current occurrence still to be
    dropped. *)
Fixpoint replace_go (old new : string) (skip : nat) (s : string) : string :=
  match s with
  | EmptyString => EmptyString
  | String c s' =>
      match skip with
      | S k => replace_go old new k s'
      | O =>
          if startswith old s
          then new +:+ replace_go old new (Nat.pred (String.length old)) s'
          else String c (replace_go old new O s')
      end
  end.

(** With an empty [old] Python inserts [new] before every character and
    at the end. *)
Fixpoint replace_empty (new s : string) : string :=
  match s with
  | EmptyString => new
  | String c s' => new +:+ String c (replace_empty new s')
  end.

Definition str_replace (old new s : string) : string :=
  match old with
  | EmptyString => replace_empty new s
  | String _ _ => replace_go old new O s
  end.

(** [' '.join(l)]. *)
Fixpoint str_join (sep : string) (l : list string) : string :=
  match l with
  | [] => EmptyString
  | [x] => x
  | x :: l' => x +:+ sep +:+ str_join sep l'
  end.

(** [str(n)] for a Python int. *)
Definition str_int (n : Z) : string := pretty n.

(** ** The platform interface *)

Class Platform := {
  float : Type;
  (** [a - b] on floats *)
  fsub : float → float → float;
  (** [f"{x:.2f}"] *)
  format_2f : float → string;
  (** [os.path.basename] *)
  basename : string → string;
  (** [os.path.join] of two components *)
  path_join : string → string → string;
}.

(** *** A POSIX instance, with time counted in hundredths of a second *)

Module Posix.

(** The part of [p] after its last slash ([posixpath.basename]). *)
Fixpoint basename_go (acc p : string) : string :=
  match p with
  | EmptyString => acc
  | String c p' =>
      if decide (c = "/"%char) then basename_go p' p' else basename_go acc p'
  end.

Definition posix_basename (p : string) : string := basename_go p p.

Fixpoint endswith_slash (a : string) : bool :=
  match a with
  | EmptyString => false
  | String c EmptyString => bool_decide (c = "/"%char)
  | String _ a' => endswith_slash a'
  end.

(** [posixpath.join(a, b)]. *)
Definition posix_join (a b : string) : string :=
  if startswith "/" b then b
  else if bool_decide (a = "") || endswith_slash a then a +:+ b
  else a +:+ "/" +:+ b.

Definition two_digits (n : Z) : string :=
  if decide (n < 10) then "0" +:+ pretty n else pretty n.

(** Centiseconds printed as seconds with two decimals. *)
Definition format_centis (t : Z) : string :=
  (if decide (t < 0) then "-" else "") +:+
  pretty (Z.abs t / 100) +:+ "." +:+ two_digits (Z.abs t mod 100).

Definition platform : Platform := {|
  float := Z;
  fsub := Z.sub;
  format_2f := format_centis;
  basename := posix_basename;
  path_join := posix_join;
|}.

End Posix.

(** ** The world the script runs in *)

(** Classes of [Exception] the library calls of the script can raise. *)
Inductive ExcClass :=
  | FileNotFoundError
  | PermissionError
  | IsADirectoryError
  | FileExistsError
  | OSError
  | UnicodeError
  | ValueError
  | MemoryError
  | BrokenProcessPool.


(** An instance of [Exception]; [exc_str] is [str(e)]. *)
Record Exception := { exc_class : ExcClass; exc_str : string }.

(** A file carries its execute permission and its text; a directory has
    neither. *)
Inductive node :=
  | File (executable : bool) (content : string)
  | Dir.

(** [subprocess.CompletedProcess], with [capture_output=True, text=True]. *)
Record CompletedProcess := {
  returncode : Z;
  stdout : string;
  stderr : string;
}.

Inductive Level := DEBUG | INFO | ERROR.

(** One record of the execution log; [exc_info] is set by
    [logging.exception], which appends the traceback. *)
Record LogRecord := {
  levelname : Level;
  message : string;
  exc_info : bool;
}.

Record State := {
  (** paths that exist, relative to the working directory *)
  fs : gmap string node;
  (** the execution log (file and console receive the same records) *)
  log : list LogRecord;
  (** number of [time.time()] calls so far *)
  clock_reads : nat;
  (** argument vectors handed to [subprocess.run], oldest first *)
  invocations : list (list string);
}.

(** What the environment decides. *)
Record Env `{Platform} := {
  (** [sys.path[0]], the directory of the script *)
  script_dir : string;
  (** [os.getcwd()] *)
  cwd : string;
  (** the child process: given the command and the file system, either
      the launch fails or the child runs to completion; either way the
      file system may change *)
  child : list string → gmap string node → (Exception + CompletedProcess) * gmap string node;
  (** the value of the n-th clock reading *)
  clock : nat → float;
  (** [open(path, "w")] fails with this exception *)
  open_fault : string → gmap string node → option Exception;
  (** writing [text] to [path] (and closing) fails with this exception *)
  write_fault : string → string → option Exception;
  (** [os.makedirs(path)] fails with this exception *)
  makedirs_fault : string → gmap string node → option Exception;
  (** scheduler decision at the n-th step of the worker pool *)
  schedule : nat → nat;
}.

(** ** The monad: state, exceptions and [SystemExit] *)

Inductive outcome (A : Type) :=
  | Return (a : A)
  | Raise (e : Exception)
  | SysExit (code : Z).
Arguments Return {A} a.
Arguments Raise {A} e.
Arguments SysExit {A} code.

Definition M (A : Type) : Type := State → outcome A * State.

#[global] Instance M_ret : MRet M := λ A a s, (Return a, s).

#[global] Instance M_bind : MBind M := λ A B k m s,
  match m s with
  | (Return a, s') => k a s'
  | (Raise e, s') => (Raise e, s')
  | (SysExit c, s') => (SysExit c, s')
  end.

(** [try: m  except Exception as e: h e].  [SystemExit] is not an
    [Exception] and passes through. *)
Definition try_except {A} (m : M A) (h : Exception → M A) : M A := λ s,
  match m s with
  | (Raise e, s') => h e s'
  | r => r
  end.

(** [for x in l: body x]. *)
Fixpoint for_each {A} (l : list A) (body : A → M unit) : M unit :=
  match l with
  | [] => mret tt
  | x :: l' => body x;; for_each l' body
  end.

(** ** Library calls *)

Section Library.
Context `{Platform}.

Definition set_fs (s : State) (f : gmap string node) : State :=
  {| fs := f; log := log s; clock_reads := clock_reads s;
     invocations := invocations s |}.

Definition logging_log (lvl : Level) (tb : bool) (msg : string) : M unit := λ s,
  (Return tt,
   {| fs := fs s;
      log := log s ++ [{| levelname := lvl; message := msg; exc_info := tb |}];
      clock_reads := clock_reads s; invocations := invocations s |}).

Definition logging_debug := logging_log DEBUG false.
Definition logging_info := logging_log INFO false.
Definition logging_error := logging_log ERROR false.
(** [logging.exception]: level ERROR, with the traceback. *)
Definition logging_exception := logging_log ERROR true.

(** [os.path.exists]. *)
Definition os_path_exists (p : string) : M bool := λ s,
  (Return (bool_decide (is_Some (fs s !! p))), s).

(** [time.time()]. *)
Definition time_time (E : Env) : M float := λ s,
  (Return (clock E (clock_reads s)),
   {| fs := fs s; log := log s; clock_reads := S (clock_reads s);
      invocations := invocations s |}).

(** [subprocess.run(command, capture_output=True, text=True, cwd=...)]. *)
Definition subprocess_run (E : Env) (command : list string) : M CompletedProcess := λ s,
  let '(r, f) := child E command (fs s) in
  let s' := {| fs := f; log := log s; clock_reads := clock_reads s;
               invocations := invocations s ++ [command] |} in
  match r with
  | inl e => (Raise e, s')
  | inr cp => (Return cp, s')
  end.

(** The execute bit an existing file keeps when it is rewritten. *)
Definition mode_of (n : option node) : bool :=
  match n with
  | Some (File x _) => x
  | _ => false
  end.

(** [with open(path, "w", encoding="utf-8") as f: f.write(text)] on the
    file system alone.  Opening truncates; a directory cannot be opened
    for writing. *)
Definition write_result (E : Env) (path text : string) (f : gmap string node)
    : outcome unit * gmap string node :=
  match f !! path with
  | Some Dir => (Raise {| exc_class := IsADirectoryError; exc_str := path |}, f)
  | old =>
      match open_fault E path f with
      | Some e => (Raise e, f)
      | None =>
          match write_fault E path text with
          | Some e => (Raise e, <[path := File (mode_of old) ""]> f)
          | None => (Return tt, <[path := File (mode_of old) text]> f)
          end
      end
  end.

Definition write_text (E : Env) (path text : string) : M unit := λ s,
  let '(o, f) := write_result E path text (fs s) in (o, set_fs s f).

(** [os.makedirs(path)]. *)
Definition os_makedirs (E : Env) (path : string) : M unit := λ s,
  match fs s !! path with
  | Some _ => (Raise {| exc_class := FileExistsError; exc_str := path |}, s)
  | None =>
      match makedirs_fault E path (fs s) with
      | Some e => (Raise e, s)
      | None => (Return tt, set_fs s (<[path := Dir]> (fs s)))
      end
  end.

(** [sys.exit(code)]. *)
Definition sys_exit {A} (code : Z) : M A := λ s, (SysExit code, s).
End Library.

(** ** The script *)

Section Script.
Context `{Platform}.

(** [CONTAM_EXE = os.path.join(sys.path[0], 'contamx3.exe')] *)
Definition CONTAM_EXE (E : Env) : string := path_join (script_dir E) "contamx3.exe".

Definition SIMULATION_FILES : list string :=
  [ path_join "simulations" "sim1.prj";
    path_join "simulations" "sim2.prj";
    path_join "simulations" "sim3.prj" ].

(** The detailed log of one finished run (lines 66-72). *)
Definition log_details (command : list string) (elapsed_time : float)
    (result : CompletedProcess) : string :=
  "Command: " +:+ str_join " " command +:+ "
" +:+ "Elapsed Time: " +:+ format_2f elapsed_time +:+ " seconds
" +:+ "Return Code: " +:+ str_int (returncode result) +:+ "
" +:+ "STDOUT:
" +:+ stdout result +:+ "
" +:+ "STDERR:
" +:+ stderr result +:+ "
".

(** Where the artifact of a job goes (line 75). *)
Definition output_log_file (simulation_name : string) : string :=
  path_join "output" (str_replace ".prj" ".log" simulation_name).

(** The three summaries [run_contam] can return. *)
Definition summary_not_found (simulation_name : string) : string :=
  simulation_name +:+ ": File not found".

Definition summary_exception (simulation_name : string) : string :=
  simulation_name +:+ ": Exception occurred".

Definition summary_completed (simulation_name : string) (elapsed_time : float)
    (rc : Z) : string :=
  simulation_name +:+ ": Completed in " +:+ format_2f elapsed_time +:+
  " seconds, Return Code: " +:+ str_int rc.

(** Lines 55-60: the guarded launch.  The handler returns from
    [run_contam]; [inl] carries that early return value. *)
Definition launch (E : Env) (simulation_name : string) (command : list string)
    : M (string + CompletedProcess) :=
  try_except
    (result ← subprocess_run E command; mret (inr result))
    (λ e,
      logging_exception ("Exception occurred while running simulation " +:+
                         simulation_name +:+ ": " +:+ exc_str e);;
      mret (inl (summary_exception simulation_name))).

(** Lines 76-81: the guarded artifact write. *)
Definition write_artifact (E : Env) (simulation_name : string)
    (details : string) : M unit :=
  try_except
    (write_text E (output_log_file simulation_name) details;;
     logging_debug ("Log details for " +:+ simulation_name +:+ " written to " +:+
                    output_log_file simulation_name))
    (λ e,
      logging_error ("Error writing log file for " +:+ simulation_name +:+
                     ": " +:+ exc_str e)).

Definition run_contam (E : Env) (sim_file : string) : M string :=
  let simulation_name := basename sim_file in
  logging_info ("Starting simulation for " +:+ simulation_name);;
  present ← os_path_exists sim_file;
  if negb present then
    let error_message := "Simulation file not found: " +:+ sim_file in
    logging_error error_message;;
    mret (summary_not_found simulation_name)
  else
    let command := [CONTAM_EXE E; sim_file] in
    logging_debug ("Executing command: " +:+ str_join " " command);;
    start_time ← time_time E;
    launched ← launch E simulation_name command;
    match launched with
    | inl early => mret early
    | inr result =>
        end_time ← time_time E;
        let elapsed_time := fsub end_time start_time in
        logging_info ("Finished simulation for " +:+ simulation_name +:+ " in " +:+
                      format_2f elapsed_time +:+ " seconds");;
        write_artifact E simulation_name (log_details command elapsed_time result);;
        mret (summary_completed simulation_name elapsed_time (returncode result))
    end.
End Script.

(** ** The worker pool *)

(** [ProcessPoolExecutor(max_workers).map(f, jobs)] at the granularity of
    whole jobs.  Jobs are queued in list order with their index; a queued
    job is started when a worker is free; any running job may be the next
    to finish, and its effects take place then; each finished job leaves
    its outcome under its index.  The scheduler's choices come from the
    environment. *)
Section Pool.
Context {A B : Type}.

Record Pool := {
  (** queued, not yet started *)
  pending : list (nat * A);
  (** occupying a worker *)
  running : list (nat * A);
  (** finished, in order of completion *)
  finished : list (nat * A * outcome B);
}.

Definition submit_all (jobs : list A) : Pool :=
  {| pending := zip (seq 0 (length jobs)) jobs; running := []; finished := [] |}.

(** Finish the [k]-th running job. *)
Definition finish (f : A → M B) (p : Pool) (k : nat) : M Pool := λ s,
  match running p !! k with
  | None => (Return p, s)
  | Some (i, a) =>
      let '(o, s') := f a s in
      (Return {| pending := pending p; running := delete k (running p);
                 finished := finished p ++ [(i, a, o)] |}, s')
  end.

(** One scheduler step under decision [d]: [0] prefers to start the
    next queued job, [S k] prefers to let the running job number
    [k mod (number running)] finish.  When the preferred move is not
    possible the other one is made. *)
Definition pool_step (max_workers : nat) (f : A → M B) (d : nat) (p : Pool) : M Pool :=
  match pending p, running p with
  | [], [] => mret p
  | job :: rest, [] =>
      mret {| pending := rest; running := [job]; finished := finished p |}
  | [], _ :: _ => finish f p (Nat.pred d `mod` length (running p))%nat
  | job :: rest, _ :: _ =>
      match d with
      | O =>
          if decide (length (running p) < max_workers)%nat
          then mret {| pending := rest; running := running p ++ [job];
                       finished := finished p |}
          else finish f p 0%nat
      | S k => finish f p (k `mod` length (running p))%nat
      end
  end.

Fixpoint pool_run (max_workers : nat) (f : A → M B) (sched : nat → nat)
    (fuel : nat) (p : Pool) : M Pool :=
  match fuel with
  | O => mret p
  | S fuel' =>
      p' ← pool_step max_workers f (sched O) p;
      pool_run max_workers f (λ n, sched (S n)) fuel' p'
  end.

(** The outcome stored under index [i]. *)
Fixpoint result_of (i : nat) (l : list (nat * A * outcome B)) : option (outcome B) :=
  match l with
  | [] => None
  | (j, _, o) :: l' => if decide (i = j) then Some o else result_of i l'
  end.

(** The result iterator: results are taken by index, from [i] on; the
    first job that did not return re-raises in the caller.  A missing
    result would block for ever; it is reported as a broken pool. *)
Fixpoint collect (l : list (nat * A * outcome B)) (i n : nat) : outcome (list B) :=
  match n with
  | O => Return []
  | S n' =>
      match result_of i l with
      | Some (Return b) =>
          match collect l (S i) n' with
          | Return bs => Return (b :: bs)
          | other => other
          end
      | Some (Raise e) => Raise e
      | Some (SysExit c) => SysExit c
      | None => Raise {| exc_class := BrokenProcessPool; exc_str := "" |}
      end
  end.

(** Run the pool until every job has finished: each step either starts
    or finishes a job, so twice the number of jobs is enough. *)
Definition executor_run (sched : nat → nat) (max_workers : nat) (f : A → M B)
    (jobs : list A) : M Pool :=
  pool_run max_workers f sched (2 * length jobs) (submit_all jobs).

(** [with ProcessPoolExecutor(max_workers) as executor:
       list(executor.map(f, jobs))].
    A pool without workers is refused. *)
Definition raise {X} (e : Exception) : M X := λ s, (Raise e, s).

Definition executor_map (sched : nat → nat) (max_workers : nat) (f : A → M B)
    (jobs : list A) : M (list B) :=
  match max_workers with
  | O => raise {| exc_class := ValueError;
                  exc_str := "max_workers must be greater than 0" |}
  | S _ =>
      p ← executor_run sched max_workers f jobs;
      (λ s, (collect (finished p) 0 (length jobs), s)) : M (list B)
  end.
End Pool.
Arguments Pool : clear implicits.

Section Main.
Context `{Platform}.

(** [logging.basicConfig] with a [FileHandler] in mode ['w']: the log
    file [execution.log], whose records are the [log] of the state, is
    opened and thereby emptied when the module is loaded. *)
Definition logging_basicConfig (E : Env) : M unit := λ s,
  match open_fault E (path_join (cwd E) "execution.log") (fs s) with
  | Some e => (Raise e, s)
  | None =>
      (Return tt,
       {| fs := fs s; log := []; clock_reads := clock_reads s;
          invocations := invocations s |})
  end.

Definition main (E : Env) : M unit :=
  present ← os_path_exists "output";
  (if negb present then
     os_makedirs E "output";;
     logging_debug "Created 'output' directory."
   else mret tt);;
  logging_info "Starting all simulations in parallel.";;
  results ← executor_map (schedule E) 3 (run_contam E) SIMULATION_FILES;
  logging_info "All simulations completed. Summary:";;
  for_each results logging_info.

(** The module body, run as [__main__]. *)
Definition script (E : Env) : M unit :=
  logging_basicConfig E;;
  present ← os_path_exists (CONTAM_EXE E);
  (if negb present then
     logging_error ("Contam executable not found: " +:+ CONTAM_EXE E);;
     sys_exit 1
   else mret tt);;
  main E.

(** The exit status of the interpreter: 0 when the module body returns,
    1 after an uncaught exception, the argument of [sys.exit]
    otherwise. *)
Definition exit_code {A} (o : outcome A) : Z :=
  match o with
  | Return _ => 0
  | Raise _ => 1
  | SysExit c => c
  end.
End Main.

(** ** Vocabulary of the statements *)

(** The records a run appends to the log. *)
Definition appended (s s' : State) : list LogRecord :=
  drop (length (log s)) (log s').

Definition record (lvl : Level) (tb : bool) (msg : string) : LogRecord :=
  {| levelname := lvl; message := msg; exc_info := tb |}.

(** The state after [logging.basicConfig] succeeded. *)
Definition fresh_log (s : State) : State :=
  {| fs := fs s; log := []; clock_reads := clock_reads s;
     invocations := invocations s |}.

Section RunVocabulary.
Context `{Platform}.
Variable E : Env.

(** The elapsed time measured by a run that starts in state [s]. *)
Definition elapsed (s : State) : float :=
fsub (clock E (S (clock_reads s))) (clock E (clock_reads s)).

(** The state in which the artifact is written. *)
Definition before_write (sim_file : string) (s : State) (f' : gmap string node) : State :=
{| fs := f';
   log := ((log s ++
           [record INFO false ("Starting simulation for " +:+ basename sim_file)]) ++
           [record DEBUG false ("Executing command: " +:+
                                str_join " " [CONTAM_EXE E; sim_file])]) ++
           [record INFO false ("Finished simulation for " +:+ basename sim_file +:+
                               " in " +:+ format_2f (elapsed s) +:+ " seconds")];
   clock_reads := S (S (clock_reads s));
   invocations := invocations s ++ [[CONTAM_EXE E; sim_file]] |}.
End RunVocabulary.

Section PoolVocabulary.
Context {A B : Type}.
Variable f : A → M B.
Variable jobs : list A.

(** The index a finished job was submitted under. *)
Definition idx (x : nat * A * outcome B) : nat := x.1.1.

(** All indices the pool holds, wherever the job is. *)
Definition indices (p : Pool A B) : list nat :=
map idx (finished p) ++ map fst (running p) ++ map fst (pending p).

(** An entry of the completion log is the trace of one call of [f] on
  the job submitted under that index. *)
Definition ran (x : nat * A * outcome B) : Prop :=
jobs !! x.1.1 = Some x.1.2 ∧ ∃ s1 s2, f x.1.2 s1 = (x.2, s2).

Record pool_inv (p : Pool A B) : Prop := {
inv_indices : indices p ≡ₚ seq 0 (length jobs);
inv_pending : Forall (λ x, jobs !! x.1 = Some x.2) (pending p);
inv_running : Forall (λ x, jobs !! x.1 = Some x.2) (running p);
inv_finished : Forall ran (finished p);
}.

(** Starts and finishes still to come. *)
Definition todo (p : Pool A B) : nat :=
(2 * length (pending p) + length (running p))%nat.
End PoolVocabulary.

(** The state with other records in its log. *)
Definition with_log (s : State) (l : list LogRecord) : State :=
  {| fs := fs s; log := l; clock_reads := clock_reads s;
     invocations := invocations s |}.

(** The state after [main] has made the output directory (lines 88-89). *)
Definition output_created (s : State) : State :=
  {| fs := <["output" := Dir]> (fs s);
     log := log s ++ [record DEBUG false "Created 'output' directory."];
     clock_reads := clock_reads s;
     invocations := invocations s |}.

(** An argument vector of the batch: the executable followed by the path
    of one job, and nothing else. *)
Definition batch_command `{Platform} (E : Env) (jobs : list string)
    (command : list string) : Prop :=
  ∃ sim_file, sim_file ∈ jobs ∧ command = [CONTAM_EXE E; sim_file].

(** The pieces occur in the text one after the other, in list order. *)
Fixpoint in_order (pieces : list string) (text : string) : Prop :=
  match pieces with
  | [] => True
  | piece :: rest =>
      ∃ pre post, text = pre +:+ piece +:+ post ∧ in_order rest post
  end.

(** The name with its extension replaced, in the words of the
    specification: what follows the last dot gives way to the new
    extension, and a name without a dot just receives it
    ([os.path.splitext]; dots that lead the name do not start an
    extension). *)
Fixpoint splitext_root (name : string) : string :=
  match name with
  | EmptyString => EmptyString
  | String c name' =>
      if contains "." name' then String c (splitext_root name')
      else if decide (c = "."%char) then EmptyString
      else String c (splitext_root name')
  end.

Fixpoint splitext_leading (name : string) : string :=
  match name with
  | String c name' =>
      if decide (c = "."%char) then String c (splitext_leading name')
      else splitext_root name
  | EmptyString => EmptyString
  end.

Definition replace_extension (name new_ext : string) : string :=
  splitext_leading name +:+ new_ext.

(** The sentence of the specification about the artifact path, for every
    job name. *)
Definition extension_replaced_for_every_name `{Platform} : Prop :=
  ∀ name : string,
    output_log_file name = path_join "output" (replace_extension name ".log").

(** The sentence of the specification about the startup check: an
    executable that is missing or not executable stops the run before any
    job. *)
Definition startup_requires_executable `{Platform} : Prop :=
  ∀ (E : Env) (s : State),
    (∀ text, fs s !! CONTAM_EXE E ≠ Some (File true text)) →
    exit_code (fst (script E s)) = 1 ∧
    invocations (snd (script E s)) = invocations s.

(** ** A concrete environment for evaluation *)

Module Demo.
#[export] Existing Instance Posix.platform.

Definition empty_state (f : gmap string node) : State :=
  {| fs := f; log := []; clock_reads := 0; invocations := [] |}.

(** A child that prints OK and exits with [rc]. *)
Definition child_ok (rc : Z) (command : list string) (f : gmap string node)
    : (Exception + CompletedProcess) * gmap string node :=
  (inr {| returncode := rc; stdout := "OK"; stderr := "" |}, f).

(** A launch that the operating system refuses. *)
Definition child_denied (command : list string) (f : gmap string node)
    : (Exception + CompletedProcess) * gmap string node :=
  (inl {| exc_class := PermissionError; exc_str := "[Errno 13] Permission denied" |}, f).

Definition env (c : list string → gmap string node →
                    (Exception + CompletedProcess) * gmap string node)
    (wf : option Exception) (sched : nat → nat) : Env :=
  {| script_dir := "/opt/contam"; cwd := "/work";
     child := c;
     clock := λ n, (125 * Z.of_nat n)%Z;
     open_fault := λ _ _, None;
     write_fault := λ _ _, wf;
     makedirs_fault := λ _ _, None;
     schedule := sched |}.

Definition exe (x : bool) : gmap string node :=
  {[ "/opt/contam/contamx3.exe" := File x "MZ" ]}.

Definition sims : gmap string node :=
  {[ "simulations" := Dir;
     "simulations/sim1.prj" := File false "p1";
     "simulations/sim2.prj" := File false "p2" ]}.


Definition disk_full : Exception :=
  {| exc_class := OSError; exc_str := "[Errno 28] No space left on device" |}.

Definition read_only : Exception :=
  {| exc_class := OSError; exc_str := "[Errno 30] Read-only file system" |}.

(** The same environment on a file system where no directory can be
    made. *)
Definition env_read_only (c : list string → gmap string node →
                              (Exception + CompletedProcess) * gmap string node)
    (sched : nat → nat) : Env :=
  {| script_dir := "/opt/contam"; cwd := "/work";
     child := c;
     clock := λ n, (125 * Z.of_nat n)%Z;
     open_fault := λ _ _, None;
     write_fault := λ _ _, Some read_only;
     makedirs_fault := λ _ _, Some read_only;
     schedule := sched |}.

(** A record left in the log by an earlier run. *)
Definition stale : LogRecord :=
  {| levelname := INFO; message := "All simulations completed. Summary:";
     exc_info := false |}.
End Demo.

(** * Properties *)

(** ** Evaluation on small inputs *)

(** ** Evaluation on small inputs *)

Example posix_basename_sim1 : Posix.posix_basename "simulations/sim1.prj" = "sim1.prj".
Proof. reflexivity. Qed.

Example posix_join_sim1 : Posix.posix_join "simulations" "sim1.prj" = "simulations/sim1.prj".
Proof. reflexivity. Qed.

Example format_centis_125 : Posix.format_centis 125 = "1.25".
Proof. vm_compute. reflexivity. Qed.

Example str_int_neg : str_int (-9) = "-9".
Proof. vm_compute. reflexivity. Qed.

Example replace_prj_twice : str_replace ".prj" ".log" "a.prj.prj" = "a.log.log".
Proof. reflexivity. Qed.

(** ** Facts about strings *)

Lemma append_cons (x : ascii) (a b : string) : String x a +:+ b = String x (a +:+ b).
Proof. reflexivity. Qed.

Lemma append_nil (b : string) : "" +:+ b = b.
Proof. reflexivity. Qed.

Lemma append_assoc (a b c : string) : (a +:+ b) +:+ c = a +:+ (b +:+ c).
Proof.
  induction a as [|x a IH]; [done|].
  rewrite !append_cons. by f_equal.
Qed.

Lemma startswith_append (sub rest : string) : startswith sub (sub +:+ rest) = true.
Proof.
  induction sub as [|x sub IH]; [done|].
  rewrite append_cons. simpl. by rewrite decide_True.
Qed.

Lemma contains_unfold (sub s : string) :
  contains sub s =
  startswith sub s || match s with EmptyString => false | String _ s' => contains sub s' end.
Proof. by destruct s. Qed.

Lemma contains_here (sub rest : string) : contains sub (sub +:+ rest) = true.
Proof. by rewrite contains_unfold, startswith_append. Qed.

Lemma contains_later (sub a s : string) :
  contains sub s = true → contains sub (a +:+ s) = true.
Proof.
  intros Hs. induction a as [|x a IH]; [done|].
  rewrite append_cons, contains_unfold, IH. apply orb_true_r.
Qed.

(** An occurrence of [".prj"] that starts inside [u] lies inside [u]: none
    straddles the end of [u] and a following [".prj"]. *)
Lemma prj_no_straddle (c : ascii) (u : string) :
  startswith ".prj" (String c u) = false →
  startswith ".prj" (String c (u +:+ ".prj")) = false.
Proof.
  destruct u as [|c2 [|c3 [|c4 u]]]; rewrite ?append_cons, ?append_nil; simpl;
    repeat case_decide; subst; try done.
Qed.

Lemma replace_prj_suffix (stem : string) :
  contains ".prj" stem = false →
  str_replace ".prj" ".log" (stem +:+ ".prj") = stem +:+ ".log".
Proof.
  unfold str_replace. induction stem as [|c stem IH]; [done|].
  rewrite contains_unfold. intros [Hhere Hrest]%orb_false_elim.
  pose proof (prj_no_straddle c stem Hhere) as Hno.
  rewrite !append_cons.
  change (replace_go ".prj" ".log" 0 (String c (stem +:+ ".prj"))) with
    (if startswith ".prj" (String c (stem +:+ ".prj"))
     then ".log" +:+ replace_go ".prj" ".log" 3 (stem +:+ ".prj")
     else String c (replace_go ".prj" ".log" 0 (stem +:+ ".prj"))).
  rewrite Hno, (IH Hrest). done.
Qed.

(** ** The three paths through [run_contam] *)

Ltac unfold_monad :=
  unfold mbind, M_bind, mret, M_ret, try_except, raise,
    logging_debug, logging_info, logging_error, logging_exception,
    logging_log, os_path_exists, time_time, subprocess_run, write_text,
    set_fs, sys_exit in *.

Section RunContam.
Context `{Platform}.
Variable E : Env.

Lemma exists_false (s : State) (p : string) :
  fs s !! p = None → bool_decide (is_Some (fs s !! p)) = false.
Proof. intros ->. apply bool_decide_eq_false. by intros [? ?]. Qed.

Lemma exists_true (s : State) (p : string) :
  is_Some (fs s !! p) → bool_decide (is_Some (fs s !! p)) = true.
Proof. intros Hs. by apply bool_decide_eq_true. Qed.

(** Line 45-48: the input file is missing. *)
Lemma run_contam_missing (sim_file : string) (s : State) :
  fs s !! sim_file = None →
  run_contam E sim_file s =
    (Return (summary_not_found (basename sim_file)),
     {| fs := fs s;
        log := (log s ++
                [record INFO false ("Starting simulation for " +:+ basename sim_file)]) ++
                [record ERROR false ("Simulation file not found: " +:+ sim_file)];
        clock_reads := clock_reads s;
        invocations := invocations s |}).
Proof.
  intros Hmiss. unfold run_contam. unfold_monad. simpl.
  rewrite (exists_false s sim_file Hmiss). reflexivity.
Qed.

(** Lines 58-60: the launch raised. *)
Lemma run_contam_launch_fault (sim_file : string) (s : State)
    (e : Exception) (f' : gmap string node) :
  is_Some (fs s !! sim_file) →
  child E [CONTAM_EXE E; sim_file] (fs s) = (inl e, f') →
  run_contam E sim_file s =
    (Return (summary_exception (basename sim_file)),
     {| fs := f';
        log := ((log s ++
                [record INFO false ("Starting simulation for " +:+ basename sim_file)]) ++
                [record DEBUG false ("Executing command: " +:+
                                     str_join " " [CONTAM_EXE E; sim_file])]) ++
                [record ERROR true ("Exception occurred while running simulation " +:+
                                    basename sim_file +:+ ": " +:+ exc_str e)];
        clock_reads := S (clock_reads s);
        invocations := invocations s ++ [[CONTAM_EXE E; sim_file]] |}).
Proof.
  intros Hex Hchild. unfold run_contam, launch. unfold_monad. simpl.
  rewrite (exists_true s sim_file Hex). simpl. rewrite Hchild. reflexivity.
Qed.

(** Writing a file either returns or raises; it never exits. *)
Lemma write_result_cases (path text : string) (f : gmap string node) :
  fst (write_result E path text f) = Return tt ∨
  ∃ e, fst (write_result E path text f) = Raise e.
Proof.
  unfold write_result.
  destruct (f !! path) as [[x c|]|]; simpl; eauto;
    destruct (open_fault E path f); simpl; eauto;
    destruct (write_fault E path text); simpl; eauto.
Qed.

(** Lines 76-81 always fall through to the [return] of line 83. *)
Lemma write_artifact_returns (simulation_name details : string) (s : State) :
  fst (write_artifact E simulation_name details s) = Return tt.
Proof.
  unfold write_artifact. unfold_monad.
  destruct (write_result_cases (output_log_file simulation_name) details (fs s))
    as [Hr | [e Hr]];
    destruct (write_result E _ _ (fs s)) as [o f'']; simpl in Hr; subst o;
    reflexivity.
Qed.

(** Lines 62-83: the child ran to completion. *)
Lemma run_contam_completed (sim_file : string) (s : State)
    (result : CompletedProcess) (f' : gmap string node) :
  is_Some (fs s !! sim_file) →
  child E [CONTAM_EXE E; sim_file] (fs s) = (inr result, f') →
  run_contam E sim_file s =
    (Return (summary_completed (basename sim_file) (elapsed E s) (returncode result)),
     snd (write_artifact E (basename sim_file)
            (log_details [CONTAM_EXE E; sim_file] (elapsed E s) result)
            (before_write E sim_file s f'))).
Proof.
  intros Hex Hchild. unfold run_contam, launch. unfold_monad. simpl.
  rewrite (exists_true s sim_file Hex). simpl. rewrite Hchild. simpl.
  fold (elapsed E s). fold (before_write E sim_file s f').
  pose proof (write_artifact_returns (basename sim_file)
    (log_details [CONTAM_EXE E; sim_file] (elapsed E s) result)
    (before_write E sim_file s f')) as Hw.
  destruct (write_artifact E _ _ _) as [o s'']. simpl in Hw. subst o.
  reflexivity.
Qed.
End RunContam.

(** ** The worker pool loses, repeats and reorders nothing *)

Section PoolFacts.
Context {A B : Type}.
Variable f : A → M B.
Variable max_workers : nat.
Variable jobs : list A.

Lemma submit_all_inv : pool_inv f jobs (submit_all jobs).
Proof.
  unfold submit_all. split; simpl.
  - unfold indices. simpl. rewrite fst_zip; [done|]. by rewrite length_seq.
  - apply Forall_forall. intros [i a] Hin. simpl.
    apply list_elem_of_lookup in Hin as [k Hk].
    apply lookup_zip_with_Some in Hk as (i' & a' & Heq & Hi & Ha).
    injection Heq as <- <-.
    apply lookup_seq in Hi as [-> _]. done.
  - constructor.
  - constructor.
Qed.

Lemma submit_all_todo : todo (@submit_all A B jobs) = (2 * length jobs)%nat.
Proof.
  unfold todo, submit_all. simpl.
  rewrite length_zip_with, length_seq. lia.
Qed.

Lemma finish_inv (p : Pool A B) (k : nat) (s : State) :
  pool_inv f jobs p → (k < length (running p))%nat →
  ∃ p' s', finish f p k s = (Return p', s') ∧ pool_inv f jobs p' ∧
           todo p' = Nat.pred (todo p).
Proof.
  intros [Hi Hp Hr Hf] Hk.
  destruct (lookup_lt_is_Some_2 _ _ Hk) as [[i a] Hia].
  unfold finish. rewrite Hia.
  destruct (f a s) as [o s'] eqn:Hfa.
  eexists _, _. split; [reflexivity|]. split; [split|]; simpl.
  - unfold indices in *. simpl. rewrite <- Hi.
    rewrite (delete_Permutation (running p) k (i, a) Hia) at 2.
    rewrite map_app. simpl. unfold idx at 2. simpl.
    rewrite <- !app_assoc. simpl.
    apply Permutation_app_head. by rewrite Permutation_middle.
  - done.
  - by apply Forall_delete.
  - apply Forall_app. split; [done|]. constructor; [|constructor].
    split; simpl.
    + rewrite Forall_forall in Hr. apply (Hr (i, a)).
      by eapply list_elem_of_lookup_2.
    + eauto.
  - unfold todo. simpl. rewrite length_delete by eauto. lia.
Qed.

Lemma pool_step_inv (d : nat) (p : Pool A B) (s : State) :
  pool_inv f jobs p →
  ∃ p' s', pool_step max_workers f d p s = (Return p', s') ∧ pool_inv f jobs p' ∧
           todo p' = Nat.pred (todo p).
Proof.
  intros Hinv. unfold pool_step.
  destruct (pending p) as [|job rest] eqn:Hpend;
    destruct (running p) as [|r0 rs] eqn:Hrun.
  - eexists _, _. split; [reflexivity|]. split; [done|].
    unfold todo. by rewrite Hpend, Hrun.
  - rewrite <- Hrun.
    destruct (finish_inv p (Nat.pred d `mod` length (running p)) s Hinv)
      as (p' & s' & ? & ? & ?); eauto.
    apply Nat.mod_upper_bound. rewrite Hrun. done.
  - eexists _, _. split; [reflexivity|]. destruct Hinv as [Hi Hp Hr Hf].
    split; [split|]; simpl.
    + unfold indices in *. simpl. rewrite <- Hi, Hpend, Hrun. done.
    + rewrite Hpend in Hp. by apply Forall_cons in Hp as [_ ?].
    + rewrite Hpend in Hp. apply Forall_cons in Hp as [? _]. by constructor.
    + done.
    + unfold todo. rewrite Hpend, Hrun. simpl. lia.
  - rewrite <- Hrun.
    assert (∀ k, (k `mod` length (running p) < length (running p))%nat) as Hmod.
    { intros k. apply Nat.mod_upper_bound. rewrite Hrun. done. }
    destruct d as [|k].
    + case_decide as Hfree.
      * eexists _, _. split; [reflexivity|]. destruct Hinv as [Hi Hp Hr Hf].
        split; [split|]; simpl.
        -- unfold indices in *. simpl. rewrite <- Hi, Hpend.
           rewrite map_app. simpl. rewrite <- !app_assoc. done.
        -- rewrite Hpend in Hp. by apply Forall_cons in Hp as [_ ?].
        -- rewrite Hpend in Hp. apply Forall_cons in Hp as [? _].
           apply Forall_app. split; [done|]. by constructor.
        -- done.
        -- unfold todo. simpl. rewrite Hpend, length_app. simpl. lia.
      * destruct (finish_inv p 0%nat s Hinv) as (p' & s' & ? & ? & ?); eauto.
        rewrite Hrun. simpl. lia.
    + destruct (finish_inv p (k `mod` length (running p)) s Hinv)
        as (p' & s' & ? & ? & ?); eauto.
Qed.

Lemma pool_run_inv (fuel : nat) :
  ∀ (sched : nat → nat) (p : Pool A B) (s : State),
  pool_inv f jobs p → (todo p ≤ fuel)%nat →
  ∃ p' s', pool_run max_workers f sched fuel p s = (Return p', s') ∧
           pool_inv f jobs p' ∧ todo p' = 0%nat.
Proof.
  induction fuel as [|fuel IH]; intros sched p s Hinv Hfuel.
  - eexists _, _. split; [reflexivity|]. split; [done|lia].
  - destruct (pool_step_inv (sched 0%nat) p s Hinv) as (p1 & s1 & Hstep & Hinv1 & Htodo).
    destruct (IH (λ n, sched (S n)) p1 s1 Hinv1) as (p' & s' & Hrun & ? & ?); [lia|].
    exists p', s'. split; [|done].
    simpl. unfold mbind, M_bind. rewrite Hstep. exact Hrun.
Qed.
End PoolFacts.

Section PoolResults.
Context {A B : Type}.

Lemma result_of_first (l : list (nat * A * outcome B)) (i : nat) :
  i ∈ map (@idx A B) l → ∃ a o, (i, a, o) ∈ l ∧ result_of i l = Some o.
Proof.
  induction l as [|[[j a] o] l IH]; simpl; intros Hin.
  - by apply elem_of_nil in Hin.
  - case_decide as Hij.
    + subst j. exists a, o. split; [left|done].
    + apply elem_of_cons in Hin as [Heq | Hin]; [done|].
      destruct (IH Hin) as (a' & o' & ? & ?).
      exists a', o'. split; [by right|done].
Qed.

Lemma result_of_elem (l : list (nat * A * outcome B)) (i : nat) (a : A) (o : outcome B) :
  NoDup (map (@idx A B) l) → (i, a, o) ∈ l → result_of i l = Some o.
Proof.
  induction l as [|[[j a'] o'] l IH]; simpl; intros Hnd Hin.
  - by apply elem_of_nil in Hin.
  - apply NoDup_cons in Hnd as [Hj Hnd].
    apply elem_of_cons in Hin as [Heq | Hin].
    + injection Heq as <- <- <-. by rewrite decide_True.
    + case_decide as Hij; [|by apply IH].
      subst j. exfalso. apply Hj.
      apply list_elem_of_fmap. by exists (i, a, o).
Qed.

(** When every finished job returned, the result iterator returns one
    value per index, the one stored under that index. *)
Lemma collect_returns (l : list (nat * A * outcome B)) :
  Forall (λ x, ∃ b, x.2 = Return b) l →
  ∀ (n i : nat),
    (∀ j, (i ≤ j < i + n)%nat → j ∈ map (@idx A B) l) →
    ∃ bs, collect l i n = Return bs ∧ length bs = n ∧
          ∀ k, (k < n)%nat →
               ∃ b, bs !! k = Some b ∧ result_of (i + k) l = Some (Return b).
Proof.
  intros Hret. induction n as [|n IH]; intros i Hall.
  - exists []. split; [done|]. split; [done|]. intros; lia.
  - destruct (result_of_first l i) as (a & o & Hin & Hres); [apply Hall; lia|].
    rewrite Forall_forall in Hret. destruct (Hret _ Hin) as [b Hb].
    simpl in Hb. subst o.
    destruct (IH (S i)) as (bs & Hbs & Hlen & Hk); [intros; apply Hall; lia|].
    exists (b :: bs). simpl. rewrite Hres, Hbs.
    split; [done|]. split; [by rewrite Hlen|].
    intros [|k] Hlt.
    + exists b. by rewrite Nat.add_0_r.
    + destruct (Hk k) as (b' & ? & Hr); [lia|].
      exists b'. split; [done|]. by rewrite Nat.add_succ_r.
Qed.

Variable f : A → M B.
Hypothesis f_returns : ∀ a s, ∃ b, fst (f a s) = Return b.

(** The batch as a whole, for a job function that always returns. *)
Lemma executor_map_spec (sched : nat → nat) (max_workers : nat) (jobs : list A)
    (s : State) :
  (1 ≤ max_workers)%nat →
  ∃ (p : Pool A B) (bs : list B) (s' : State),
    executor_run sched max_workers f jobs s = (Return p, s') ∧
    executor_map sched max_workers f jobs s = (Return bs, s') ∧
    length bs = length jobs ∧
    map idx (finished p) ≡ₚ seq 0 (length jobs) ∧
    ∀ i a o, (i, a, o) ∈ finished p →
      jobs !! i = Some a ∧
      ∃ b, o = Return b ∧ bs !! i = Some b ∧ ∃ s1 s2, f a s1 = (Return b, s2).
Proof.
  intros Hw.
  destruct (pool_run_inv f max_workers jobs (2 * length jobs) sched
              (submit_all jobs) s (submit_all_inv f jobs))
    as (p & s' & Hrun & [Hi Hp Hr Hf] & Htodo).
  { by rewrite submit_all_todo. }
  assert (pending p = [] ∧ running p = []) as [Hpe Hru].
  { unfold todo in Htodo. split; apply length_zero_iff_nil; lia. }
  unfold indices in Hi. rewrite Hpe, Hru in Hi. simpl in Hi.
  rewrite app_nil_r in Hi.
  assert (Forall (λ x : nat * A * outcome B, ∃ b, x.2 = Return b) (finished p)) as Hret.
  { eapply Forall_impl; [exact Hf|]. intros [[i a] o] [_ (s1 & s2 & Hrun1)].
    simpl in *. destruct (f_returns a s1) as [b Hb].
    rewrite Hrun1 in Hb. eauto. }
  destruct (collect_returns (finished p) Hret (length jobs) 0%nat)
    as (bs & Hbs & Hlen & Hk).
  { intros j Hj. rewrite Hi. apply elem_of_seq. lia. }
  exists p, bs, s'. split; [exact Hrun|]. split.
  { unfold executor_map. destruct max_workers; [lia|].
    unfold mbind, M_bind, executor_run. rewrite Hrun. by rewrite Hbs. }
  split; [done|]. split; [done|].
  intros i a o Hin.
  rewrite Forall_forall in Hf. destruct (Hf _ Hin) as [Hjob (s1 & s2 & Hrun1)].
  simpl in Hjob, Hrun1. split; [done|].
  rewrite Forall_forall in Hret. destruct (Hret _ Hin) as [b Hb].
  simpl in Hb. subst o. exists b. split; [done|].
  assert (i < length jobs)%nat as Hlt by (by eapply lookup_lt_Some).
  destruct (Hk i Hlt) as (b' & Hb' & Hres). simpl in Hres.
  rewrite (result_of_elem (finished p) i a (Return b)) in Hres.
  - injection Hres as <-. eauto.
  - rewrite Hi. apply NoDup_seq.
  - done.
Qed.
End PoolResults.

(** ** What the guarded blocks of [run_contam] do *)

Section Guards.
Context `{Platform}.
Variable E : Env.

Lemma launch_returns (simulation_name : string) (command : list string) (s : State) :
  ∃ r, fst (launch E simulation_name command s) = Return r.
Proof.
  unfold launch. unfold_monad.
  destruct (child E command (fs s)) as [[e | result] f']; simpl; eauto.
Qed.

Lemma run_contam_returns (sim_file : string) (s : State) :
  ∃ r, fst (run_contam E sim_file s) = Return r.
Proof.
  destruct (fs s !! sim_file) as [nd|] eqn:Hnode.
  - assert (is_Some (fs s !! sim_file)) as Hex by eauto.
    destruct (child E [CONTAM_EXE E; sim_file] (fs s)) as [[e | result] f'] eqn:Hchild.
    + rewrite (run_contam_launch_fault E sim_file s e f' Hex Hchild). eauto.
    + rewrite (run_contam_completed E sim_file s result f' Hex Hchild). eauto.
  - rewrite (run_contam_missing E sim_file s Hnode). eauto.
Qed.

Lemma write_artifact_ok (simulation_name details : string) (s : State)
    (f2 : gmap string node) :
  write_result E (output_log_file simulation_name) details (fs s) = (Return tt, f2) →
  write_artifact E simulation_name details s =
    (Return tt,
     {| fs := f2;
        log := log s ++
               [record DEBUG false ("Log details for " +:+ simulation_name +:+
                                    " written to " +:+ output_log_file simulation_name)];
        clock_reads := clock_reads s;
        invocations := invocations s |}).
Proof. intros Hw. unfold write_artifact. unfold_monad. by rewrite Hw. Qed.

Lemma write_artifact_fault (simulation_name details : string) (s : State)
    (e : Exception) (f2 : gmap string node) :
  write_result E (output_log_file simulation_name) details (fs s) = (Raise e, f2) →
  write_artifact E simulation_name details s =
    (Return tt,
     {| fs := f2;
        log := log s ++
               [record ERROR false ("Error writing log file for " +:+ simulation_name +:+
                                    ": " +:+ exc_str e)];
        clock_reads := clock_reads s;
        invocations := invocations s |}).
Proof. intros Hw. unfold write_artifact. unfold_monad. by rewrite Hw. Qed.

(** A successful write leaves exactly the text under the path. *)
Lemma write_result_ok_lookup (path text : string) (f f2 : gmap string node) :
  write_result E path text f = (Return tt, f2) →
  ∃ x, f2 !! path = Some (File x text).
Proof.
  unfold write_result.
  destruct (f !! path) as [[x c|]|]; try discriminate;
    destruct (open_fault E path f); try discriminate;
    destruct (write_fault E path text); try discriminate;
    intros [= <-]; eexists; apply lookup_insert_eq.
Qed.

(** The artifact write appends exactly one record, without traceback. *)
Lemma write_artifact_log (simulation_name details : string) (s : State) :
  ∃ r, log (snd (write_artifact E simulation_name details s)) = (log s ++ [r])%list ∧
       exc_info r = false.
Proof.
  destruct (write_result E (output_log_file simulation_name) details (fs s))
    as [[[] | e | c] f2] eqn:Hw.
  - rewrite (write_artifact_ok _ _ _ _ Hw). simpl. eauto.
  - rewrite (write_artifact_fault _ _ _ _ _ Hw). simpl. eauto.
  - destruct (write_result_cases E (output_log_file simulation_name) details (fs s))
      as [Hr | [e Hr]]; rewrite Hw in Hr; discriminate.
Qed.

(** After a completed child and a successful write the artifact is on
    disk, under [output_log_file], with [log_details] as its text. *)
Lemma artifact_on_disk (sim_file : string) (s : State)
    (result : CompletedProcess) (f' : gmap string node) :
  is_Some (fs s !! sim_file) →
  child E [CONTAM_EXE E; sim_file] (fs s) = (inr result, f') →
  fst (write_result E (output_log_file (basename sim_file))
         (log_details [CONTAM_EXE E; sim_file] (elapsed E s) result) f') = Return tt →
  ∃ x, fs (snd (run_contam E sim_file s)) !! output_log_file (basename sim_file) =
       Some (File x (log_details [CONTAM_EXE E; sim_file] (elapsed E s) result)).
Proof.
  intros Hex Hchild Hw.
  rewrite (run_contam_completed E sim_file s result f' Hex Hchild). simpl.
  destruct (write_result E _ _ f') as [o f2] eqn:Hwr. simpl in Hw. subst o.
  rewrite (write_artifact_ok _ _ (before_write E sim_file s f') f2 Hwr). simpl.
  by eapply write_result_ok_lookup.
Qed.
End Guards.

(** ** The per-job contract *)

Section PerJob.
Context `{Platform}.


(** C3.  A child that exits with a non-zero code gives the "Completed"
    summary, whose text ends with that very code in decimal: the text
    names the job, the elapsed time and the code as the child returned
    it, and two different codes never give the same text.  None of the
    records the run logs comes from the exception handler (none has a
    traceback). *)
Theorem nonzero_exit_is_completed (E : Env) (sim_file : string) (s : State)
    (result : CompletedProcess) (f' : gmap string node) :
  is_Some (fs s !! sim_file) →
  child E [CONTAM_EXE E; sim_file] (fs s) = (inr result, f') →
  returncode result ≠ 0 →
  fst (run_contam E sim_file s) =
    Return (basename sim_file +:+ ": Completed in " +:+
            format_2f (fsub (clock E (S (clock_reads s))) (clock E (clock_reads s))) +:+
            " seconds, Return Code: " +:+ str_int (returncode result)) ∧
  (∀ rc : Z, str_int rc = str_int (returncode result) → rc = returncode result) ∧
  Forall (λ r, exc_info r = false) (appended s (snd (run_contam E sim_file s))).
Proof.
  intros Hex Hchild _.
  rewrite (run_contam_completed E sim_file s result f' Hex Hchild).
  split; [done|]. split.
  { intros rc Hrc. unfold str_int in Hrc. by apply (inj pretty) in Hrc. }
  simpl. unfold appended.
  destruct (write_artifact_log E (basename sim_file)
              (log_details [CONTAM_EXE E; sim_file] (elapsed E s) result)
              (before_write E sim_file s f')) as (r & -> & Hr).
  simpl. rewrite <- !app_assoc, drop_app_length. simpl.
  repeat constructor. done.
Qed.


(** C5.  When the artifact cannot be written, the failure is logged as
    an error and [run_contam] returns the summary it had already
    determined: the same value it returns in any environment that
    differs only in how file operations fare. *)
Theorem artifact_failure_keeps_result (E : Env) (sim_file : string) (s : State)
    (result : CompletedProcess) (f' f2 : gmap string node) (e : Exception) :
  is_Some (fs s !! sim_file) →
  child E [CONTAM_EXE E; sim_file] (fs s) = (inr result, f') →
  write_result E (output_log_file (basename sim_file))
    (log_details [CONTAM_EXE E; sim_file] (elapsed E s) result) f' = (Raise e, f2) →
  fst (run_contam E sim_file s) =
    Return (summary_completed (basename sim_file) (elapsed E s) (returncode result)) ∧
  last (log (snd (run_contam E sim_file s))) =
    Some (record ERROR false ("Error writing log file for " +:+ basename sim_file +:+
                              ": " +:+ exc_str e)) ∧
  ∀ E' : Env,
    script_dir E' = script_dir E → child E' = child E → clock E' = clock E →
    fst (run_contam E' sim_file s) = fst (run_contam E sim_file s).
Proof.
  intros Hex Hchild Hw.
  rewrite (run_contam_completed E sim_file s result f' Hex Hchild). simpl.
  split; [done|]. split.
  - rewrite (write_artifact_fault E _ _ (before_write E sim_file s f') e f2 Hw).
    simpl. by rewrite last_snoc.
  - intros E' Hdir Hch Hclock.
    assert (CONTAM_EXE E' = CONTAM_EXE E) as Hexe by (unfold CONTAM_EXE; by rewrite Hdir).
    assert (child E' [CONTAM_EXE E'; sim_file] (fs s) = (inr result, f')) as Hchild'.
    { by rewrite Hexe, Hch. }
    rewrite (run_contam_completed E' sim_file s result f' Hex Hchild'). simpl.
    unfold elapsed. by rewrite Hclock.
Qed.

(** C10.  [run_contam] returns a summary for every input path and every
    behaviour of the environment; it neither raises nor exits.  Its two
    guarded blocks, the launch and the artifact write, absorb every
    exception of the call they wrap. *)
Theorem run_contam_total (E : Env) :
  (∀ (sim_file : string) (s : State),
     ∃ summary, fst (run_contam E sim_file s) = Return summary ∧
       (summary = summary_not_found (basename sim_file) ∨
        summary = summary_exception (basename sim_file) ∨
        ∃ t rc, summary = summary_completed (basename sim_file) t rc)) ∧
  (∀ (simulation_name : string) (command : list string) (s : State),
     ∃ r, fst (launch E simulation_name command s) = Return r) ∧
  (∀ (simulation_name details : string) (s : State),
     fst (write_artifact E simulation_name details s) = Return tt).
Proof.
  split; [|split].
  - intros sim_file s.
    destruct (fs s !! sim_file) as [nd|] eqn:Hnode.
    + assert (is_Some (fs s !! sim_file)) as Hex by eauto.
      destruct (child E [CONTAM_EXE E; sim_file] (fs s)) as [[e | result] f'] eqn:Hchild.
      * rewrite (run_contam_launch_fault E sim_file s e f' Hex Hchild). eauto.
      * rewrite (run_contam_completed E sim_file s result f' Hex Hchild).
        eexists. split; [reflexivity|]. right. right. eauto.
    + rewrite (run_contam_missing E sim_file s Hnode). eauto.
  - apply launch_returns.
  - apply write_artifact_returns.
Qed.
End PerJob.

(** ** Artifacts *)

Example replace_extension_sim1 : replace_extension "sim1.prj" ".log" = "sim1.log".
Proof. reflexivity. Qed.

Example replace_extension_two_dots : replace_extension "a.prj.prj" ".log" = "a.prj.log".
Proof. reflexivity. Qed.

Example output_log_file_upper :
  @output_log_file Posix.platform (Posix.posix_basename "simulations/SIM1.PRJ") =
  "output/SIM1.PRJ".
Proof. reflexivity. Qed.

(** The sentence fails: a project file saved as [SIM1.PRJ] keeps its
    name, extension included, because only the lower-case text [".prj"]
    is replaced. *)
Lemma extension_not_replaced_for_every_name :
  ¬ @extension_replaced_for_every_name Posix.platform.
Proof.
  intros Hclaim. specialize (Hclaim "SIM1.PRJ"). vm_compute in Hclaim. discriminate.
Qed.

Section Artifacts.
Context `{Platform}.

(** The artifact of a job is written under ["output"] joined with the
    job name in which every occurrence of [".prj"] is replaced by
    [".log"]; for a name [stem.prj] whose stem has no [".prj"] this is
    [stem.log]. *)
Theorem artifact_path (E : Env) (sim_file : string) (s : State)
    (result : CompletedProcess) (f' : gmap string node) :
  is_Some (fs s !! sim_file) →
  child E [CONTAM_EXE E; sim_file] (fs s) = (inr result, f') →
  fst (write_result E (output_log_file (basename sim_file))
         (log_details [CONTAM_EXE E; sim_file] (elapsed E s) result) f') = Return tt →
  (∃ x text,
     fs (snd (run_contam E sim_file s)) !!
       path_join "output" (str_replace ".prj" ".log" (basename sim_file)) =
     Some (File x text)) ∧
  ∀ stem : string,
    basename sim_file = stem +:+ ".prj" → contains ".prj" stem = false →
    output_log_file (basename sim_file) = path_join "output" (stem +:+ ".log").
Proof.
  intros Hex Hchild Hw. split.
  - destruct (artifact_on_disk E sim_file s result f' Hex Hchild Hw) as [x Hx].
    eauto.
  - intros stem Hname Hstem. unfold output_log_file.
    by rewrite Hname, replace_prj_suffix.
Qed.

(** C9.  After a completed child and a successful write, the artifact
    holds the command, the elapsed time, the return code, the standard
    output and the standard error, each under its label and in this
    order; with standard output [OK] and return code 0 the text
    contains [OK] and [Return Code: 0]. *)
Theorem artifact_sections (E : Env) (sim_file : string) (s : State)
    (result : CompletedProcess) (f' : gmap string node) :
  is_Some (fs s !! sim_file) →
  child E [CONTAM_EXE E; sim_file] (fs s) = (inr result, f') →
  fst (write_result E (output_log_file (basename sim_file))
         (log_details [CONTAM_EXE E; sim_file] (elapsed E s) result) f') = Return tt →
  ∃ x text,
    fs (snd (run_contam E sim_file s)) !! output_log_file (basename sim_file) =
      Some (File x text) ∧
    in_order
      [ "Command: " +:+ CONTAM_EXE E +:+ " " +:+ sim_file;
        "Elapsed Time: " +:+ format_2f (elapsed E s) +:+ " seconds";
        "Return Code: " +:+ str_int (returncode result);
        "STDOUT:" +:+ String "010" (stdout result);
        "STDERR:" +:+ String "010" (stderr result) ] text ∧
    (stdout result = "OK" → returncode result = 0 →
     contains "OK" text = true ∧ contains "Return Code: 0" text = true).
Proof.
  intros Hex Hchild Hw.
  destruct (artifact_on_disk E sim_file s result f' Hex Hchild Hw) as [x Hx].
  exists x, (log_details [CONTAM_EXE E; sim_file] (elapsed E s) result).
  split; [exact Hx|]. unfold log_details. simpl str_join. split.
  - exists "". eexists. split; [by rewrite !append_assoc|].
    exists (String "010" ""). eexists. split; [by rewrite !append_assoc|].
    exists (String "010" ""). eexists. split; [by rewrite !append_assoc|].
    exists (String "010" ""). eexists. split; [by rewrite !append_assoc|].
    exists (String "010" ""). eexists. split; [by rewrite !append_assoc|].
    done.
  - intros -> ->. split.
    + do 10 apply contains_later. apply contains_here.
    + do 6 apply contains_later.
      replace (str_int 0) with "0" by (vm_compute; reflexivity).
      rewrite <- append_assoc. apply contains_here.
Qed.
End Artifacts.

(** ** The batch *)

Section Batch.
Context `{Platform}.


Lemma for_each_logging_info (l : list string) (s : State) :
  fst (for_each l logging_info s) = Return tt.
Proof.
  revert s. induction l as [|x l IH]; intros s; [done|].
  simpl. unfold_monad. simpl. apply IH.
Qed.

(** [main] returns whenever the output directory is there or can be
    made, whatever happens to the jobs. *)
Lemma main_returns (E : Env) (s : State) :
  is_Some (fs s !! "output") ∨ makedirs_fault E "output" (fs s) = None →
  fst (main E s) = Return tt.
Proof.
  intros Hout.
  assert (∀ s0 : State,
    fst ((logging_info "Starting all simulations in parallel.";;
          results ← executor_map (schedule E) 3 (run_contam E) SIMULATION_FILES;
          logging_info "All simulations completed. Summary:";;
          for_each results logging_info) s0) = Return tt) as Hrest.
  { intros s0. unfold mbind at 1, M_bind at 1. unfold logging_info at 1, logging_log.
    unfold mbind at 1, M_bind at 1.
    destruct (executor_map_spec (run_contam E) (run_contam_returns E) (schedule E) 3
                SIMULATION_FILES
                {| fs := fs s0;
                   log := log s0 ++ [{| levelname := INFO;
                                        message := "Starting all simulations in parallel.";
                                        exc_info := false |}];
                   clock_reads := clock_reads s0; invocations := invocations s0 |})
      as (p & bs & s' & _ & Hmap & _); [lia|].
    rewrite Hmap. unfold_monad. simpl. apply for_each_logging_info. }
  unfold main. unfold mbind at 1, M_bind at 1. unfold os_path_exists.
  destruct (fs s !! "output") as [nd|] eqn:Hnode.
  - rewrite bool_decide_eq_true_2 by eauto. simpl.
    unfold mbind at 1, M_bind at 1. unfold mret, M_ret. apply Hrest.
  - rewrite bool_decide_eq_false_2 by (by intros [? ?]). simpl.
    destruct Hout as [[? ?] | Hmk]; [done|].
    unfold mbind at 1, M_bind at 1. unfold mbind at 1, M_bind at 1.
    unfold os_makedirs. rewrite Hnode, Hmk.
    unfold logging_debug, logging_log. apply Hrest.
Qed.

Lemma script_missing (E : Env) (s : State) :
  open_fault E (path_join (cwd E) "execution.log") (fs s) = None →
  fs s !! CONTAM_EXE E = None →
  script E s =
    (SysExit 1,
     {| fs := fs s;
        log := [record ERROR false ("Contam executable not found: " +:+ CONTAM_EXE E)];
        clock_reads := clock_reads s;
        invocations := invocations s |}).
Proof.
  intros Hlog Hexe. unfold script, logging_basicConfig. unfold_monad.
  rewrite Hlog. simpl. rewrite Hexe.
  rewrite bool_decide_eq_false_2 by (by intros [? ?]). reflexivity.
Qed.

Lemma script_present (E : Env) (s : State) :
  open_fault E (path_join (cwd E) "execution.log") (fs s) = None →
  is_Some (fs s !! CONTAM_EXE E) →
  script E s = main E (fresh_log s).
Proof.
  intros Hlog Hexe. unfold script, logging_basicConfig. unfold_monad.
  rewrite Hlog. simpl. rewrite bool_decide_eq_true_2 by done. simpl.
  fold (fresh_log s). by destruct (main E (fresh_log s)) as [[[]| |] ?].
Qed.

Lemma script_logging_fault (E : Env) (s : State) (e : Exception) :
  open_fault E (path_join (cwd E) "execution.log") (fs s) = Some e →
  script E s = (Raise e, s).
Proof.
  intros Hlog. unfold script, logging_basicConfig. unfold_monad. by rewrite Hlog.
Qed.

(** C6.  With the executable missing at startup the process ends with
    exit code 1 and no job has been attempted: nothing was launched,
    the clock was not read, the file system is untouched and the log
    holds at most the error about the executable.  With the executable
    in place, the log file open and the output directory present or
    creatable, the process ends with exit code 0, whatever the jobs
    do. *)
Theorem process_exit_code (E : Env) (s : State) :
  (fs s !! CONTAM_EXE E = None →
   exit_code (fst (script E s)) = 1 ∧
   invocations (snd (script E s)) = invocations s ∧
   clock_reads (snd (script E s)) = clock_reads s ∧
   fs (snd (script E s)) = fs s ∧
   (log (snd (script E s)) = log s ∨
    log (snd (script E s)) =
      [record ERROR false ("Contam executable not found: " +:+ CONTAM_EXE E)])) ∧
  (is_Some (fs s !! CONTAM_EXE E) →
   open_fault E (path_join (cwd E) "execution.log") (fs s) = None →
   is_Some (fs s !! "output") ∨ makedirs_fault E "output" (fs s) = None →
   exit_code (fst (script E s)) = 0).
Proof.
  split.
  - intros Hexe.
    destruct (open_fault E (path_join (cwd E) "execution.log") (fs s)) as [e|] eqn:Hlog.
    + rewrite (script_logging_fault E s e Hlog). simpl. repeat split; auto.
    + rewrite (script_missing E s Hlog Hexe). simpl. repeat split; auto.
  - intros Hexe Hlog Hout.
    rewrite (script_present E s Hlog Hexe).
    by rewrite (main_returns E (fresh_log s) Hout).
Qed.

(** C7, amended.  The startup check tests that the executable path
    exists, and nothing else: a missing path ends the run with
    [sys.exit(1)] before any job, and any existing path, executable or
    not, lets [main] run. *)
Theorem startup_checks_existence_only (E : Env) (s : State) :
  open_fault E (path_join (cwd E) "execution.log") (fs s) = None →
  (fs s !! CONTAM_EXE E = None →
   script E s =
     (SysExit 1,
      {| fs := fs s;
         log := [record ERROR false ("Contam executable not found: " +:+ CONTAM_EXE E)];
         clock_reads := clock_reads s;
         invocations := invocations s |})) ∧
  (∀ nd : node, fs s !! CONTAM_EXE E = Some nd → script E s = main E (fresh_log s)).
Proof.
  intros Hlog. split.
  - by apply script_missing.
  - intros nd Hnd. apply script_present; eauto.
Qed.
End Batch.

(** ** Further properties of [run_contam] *)

Section RunContamMore.
Context `{Platform}.
Variable E : Env.

(** The guarded write changes the file system as the write does, and
    neither the clock nor the invocations. *)
Lemma write_artifact_frame (simulation_name details : string) (s : State) :
  fs (snd (write_artifact E simulation_name details s)) =
    snd (write_result E (output_log_file simulation_name) details (fs s)) ∧
  clock_reads (snd (write_artifact E simulation_name details s)) = clock_reads s ∧
  invocations (snd (write_artifact E simulation_name details s)) = invocations s.
Proof.
  destruct (write_result E (output_log_file simulation_name) details (fs s))
    as [[[] | e | c] f2] eqn:Hw.
  - by rewrite (write_artifact_ok E _ _ _ _ Hw).
  - by rewrite (write_artifact_fault E _ _ _ _ _ Hw).
  - destruct (write_result_cases E (output_log_file simulation_name) details (fs s))
      as [Hr | [e Hr]]; rewrite Hw in Hr; discriminate.
Qed.

Lemma run_contam_invocations_cases (sim_file : string) (s : State) :
  invocations (snd (run_contam E sim_file s)) = invocations s ∨
  invocations (snd (run_contam E sim_file s)) =
    (invocations s ++ [[CONTAM_EXE E; sim_file]])%list.
Proof.
  destruct (fs s !! sim_file) as [nd|] eqn:Hnode.
  - assert (is_Some (fs s !! sim_file)) as Hex by eauto.
    destruct (child E [CONTAM_EXE E; sim_file] (fs s)) as [[e | result] f'] eqn:Hchild.
    + rewrite (run_contam_launch_fault E sim_file s e f' Hex Hchild). by right.
    + rewrite (run_contam_completed E sim_file s result f' Hex Hchild). simpl.
      right. by rewrite (proj2 (proj2 (write_artifact_frame _ _ _))).
  - rewrite (run_contam_missing E sim_file s Hnode). by left.
Qed.

(** X1.  When the input file is there, [run_contam] hands exactly one
    argument vector to [subprocess.run], the executable followed by the
    input path as its only argument, whether the launch then succeeds or
    raises; the clock is read once before the launch and once more only
    if the child completed. *)
Theorem run_contam_launches_once (sim_file : string) (s : State) :
  is_Some (fs s !! sim_file) →
  invocations (snd (run_contam E sim_file s)) =
    (invocations s ++ [[CONTAM_EXE E; sim_file]])%list ∧
  ((∃ e f', child E [CONTAM_EXE E; sim_file] (fs s) = (inl e, f')) →
   clock_reads (snd (run_contam E sim_file s)) = S (clock_reads s)) ∧
  ((∃ result f', child E [CONTAM_EXE E; sim_file] (fs s) = (inr result, f')) →
   clock_reads (snd (run_contam E sim_file s)) = S (S (clock_reads s))).
Proof.
  intros Hex.
  destruct (child E [CONTAM_EXE E; sim_file] (fs s)) as [[e | result] f'] eqn:Hchild.
  - rewrite (run_contam_launch_fault E sim_file s e f' Hex Hchild). simpl.
    split; [done|]. split; [done|]. by intros (? & ? & ?).
  - rewrite (run_contam_completed E sim_file s result f' Hex Hchild). simpl.
    destruct (write_artifact_frame (basename sim_file)
                (log_details [CONTAM_EXE E; sim_file] (elapsed E s) result)
                (before_write E sim_file s f')) as (_ & -> & ->).
    split; [done|]. split; [by intros (? & ? & ?)|done].
Qed.

(** X2.  When the launch raises, [run_contam] returns from the handler:
    the file system is exactly what the failed launch left, so no
    artifact is written, and the log ends with the record of the
    exception. *)
Theorem launch_fault_writes_no_artifact (sim_file : string) (s : State)
    (e : Exception) (f' : gmap string node) :
  is_Some (fs s !! sim_file) →
  child E [CONTAM_EXE E; sim_file] (fs s) = (inl e, f') →
  fs (snd (run_contam E sim_file s)) = f' ∧
  length (appended s (snd (run_contam E sim_file s))) = 3%nat ∧
  Forall (λ r, ¬ ∃ rest, message r = "Log details for " +:+ rest)
         (appended s (snd (run_contam E sim_file s))).
Proof.
  intros Hex Hchild.
  rewrite (run_contam_launch_fault E sim_file s e f' Hex Hchild). simpl.
  split; [done|]. unfold appended. simpl.
  rewrite <- !app_assoc, drop_app_length. simpl. split; [done|].
  repeat constructor; simpl; intros [rest Hrest]; discriminate.
Qed.

End RunContamMore.

(** A name in which [old] does not occur is left as it is. *)
Lemma replace_go_absent (old new s : string) :
  contains old s = false → replace_go old new 0 s = s.
Proof.
  induction s as [|c s IH]; [done|].
  rewrite contains_unfold. intros [Hhere Hrest]%orb_false_elim.
  change (replace_go old new 0 (String c s)) with
    (if startswith old (String c s)
     then new +:+ replace_go old new (Nat.pred (String.length old)) s
     else String c (replace_go old new 0 s)).
  by rewrite Hhere, (IH Hrest).
Qed.

(** X5.  A job name in which the text [".prj"] does not occur is not
    renamed at all: its artifact goes to the output directory under the
    job's own file name, extension included. *)
Theorem artifact_keeps_name_without_prj `{Platform} (simulation_name : string) :
  contains ".prj" simulation_name = false →
  output_log_file simulation_name = path_join "output" simulation_name.
Proof.
  intros Habsent. unfold output_log_file, str_replace.
  by rewrite replace_go_absent.
Qed.

(** ** Further properties of the pool and of [main] *)

Section PoolSteps.
Context {A B : Type}.
Variable f : A → M B.
Variable max_workers : nat.
Variable jobs : list A.

(** A property of the completion log and the state that every finished
    job of the list re-establishes. *)
Variable Q : list (nat * A * outcome B) → State → Prop.
Hypothesis Q_finish :
  ∀ fin s i a, jobs !! i = Some a → Q fin s →
               Q (fin ++ [(i, a, fst (f a s))]) (snd (f a s)).

Lemma pool_step_keeps (d : nat) (p p' : Pool A B) (s s' : State) :
  pool_inv f jobs p → Q (finished p) s →
  pool_step max_workers f d p s = (Return p', s') → Q (finished p') s'.
Proof.
  intros [_ _ Hr _] HQ.
  assert (∀ k, finish f p k s = (Return p', s') → Q (finished p') s') as Hfin.
  { intros k. unfold finish.
    destruct (running p !! k) as [[i a]|] eqn:Hk.
    - rewrite Forall_forall in Hr.
      assert (jobs !! i = Some a) as Hjob.
      { apply (Hr (i, a)). by eapply list_elem_of_lookup_2. }
      pose proof (Q_finish (finished p) s i a Hjob HQ) as HQ'.
      destruct (f a s) as [o s1]. intros [= <- <-]. exact HQ'.
    - by intros [= <- <-]. }
  unfold pool_step.
  destruct (pending p) as [|job rest]; destruct (running p) as [|r0 rs] eqn:Hrun.
  - by intros [= <- <-].
  - rewrite <- Hrun. apply Hfin.
  - by intros [= <- <-].
  - rewrite <- Hrun. destruct d as [|k]; [|apply Hfin].
    case_decide; [by intros [= <- <-] | apply Hfin].
Qed.

Lemma pool_run_keeps (fuel : nat) :
  ∀ (sched : nat → nat) (p p' : Pool A B) (s s' : State),
  pool_inv f jobs p → Q (finished p) s →
  pool_run max_workers f sched fuel p s = (Return p', s') → Q (finished p') s'.
Proof.
  induction fuel as [|fuel IH]; intros sched p p' s s' Hinv HQ.
  - by intros [= <- <-].
  - destruct (pool_step_inv f max_workers jobs (sched 0%nat) p s Hinv)
      as (p1 & s1 & Hstep & Hinv1 & _).
    simpl. unfold mbind, M_bind. rewrite Hstep.
    apply (IH _ p1 p' s1 s' Hinv1).
    exact (pool_step_keeps _ p p1 s s1 Hinv HQ Hstep).
Qed.

Lemma pool_step_bound (d : nat) (p p' : Pool A B) (s s' : State) :
  (1 ≤ max_workers)%nat → (length (running p) ≤ max_workers)%nat →
  pool_step max_workers f d p s = (Return p', s') →
  (length (running p') ≤ max_workers)%nat.
Proof.
  intros Hw Hb.
  assert (∀ k, finish f p k s = (Return p', s') →
               (length (running p') ≤ max_workers)%nat) as Hfin.
  { intros k. unfold finish.
    destruct (running p !! k) as [[i a]|] eqn:Hk.
    - destruct (f a s) as [o s1]. intros [= <- <-]. simpl.
      rewrite length_delete by eauto. lia.
    - by intros [= <- <-]. }
  unfold pool_step.
  destruct (pending p) as [|job rest]; destruct (running p) as [|r0 rs] eqn:Hrun.
  - intros [= <- <-]. by rewrite Hrun.
  - rewrite <- Hrun. apply Hfin.
  - intros [= <- <-]. simpl. lia.
  - rewrite <- Hrun. destruct d as [|k]; [|apply Hfin].
    case_decide; [|apply Hfin].
    intros [= <- <-]. simpl. rewrite length_app. simpl. lia.
Qed.

(** X6.  However long the pool has been running and whatever the
    scheduler chose, no more than [max_workers] jobs occupy a worker at
    the same time. *)
Theorem pool_never_exceeds_workers (sched : nat → nat) (steps : nat) (s : State) :
  (1 ≤ max_workers)%nat →
  ∃ (p : Pool A B) (s' : State),
    pool_run max_workers f sched steps (submit_all jobs) s = (Return p, s') ∧
    (length (running p) ≤ max_workers)%nat.
Proof.
  intros Hw.
  assert (∀ (n : nat) (sc : nat → nat) (p0 : Pool A B) (s0 : State),
            pool_inv f jobs p0 → (length (running p0) ≤ max_workers)%nat →
            ∃ p s', pool_run max_workers f sc n p0 s0 = (Return p, s') ∧
                    (length (running p) ≤ max_workers)%nat) as Hgen.
  { induction n as [|n IH]; intros sc p0 s0 Hinv Hb.
    - by exists p0, s0.
    - destruct (pool_step_inv f max_workers jobs (sc 0%nat) p0 s0 Hinv)
        as (p1 & s1 & Hstep & Hinv1 & _).
      destruct (IH (λ k, sc (S k)) p1 s1 Hinv1) as (p & s' & Hrun & Hbound).
      { by eapply pool_step_bound. }
      exists p, s'. split; [|done].
      simpl. unfold mbind, M_bind. by rewrite Hstep. }
  apply Hgen; [apply submit_all_inv | simpl; lia].
Qed.
End PoolSteps.

Section MainMore.
Context `{Platform}.
Variable E : Env.

(** [main] from line 91 on. *)
Lemma main_from_dispatch_present (s : State) :
  is_Some (fs s !! "output") →
  main E s =
    (logging_info "Starting all simulations in parallel.";;
     results ← executor_map (schedule E) 3 (run_contam E) SIMULATION_FILES;
     logging_info "All simulations completed. Summary:";;
     for_each results logging_info) s.
Proof.
  intros Hout. unfold main. unfold mbind at 1, M_bind at 1. unfold os_path_exists.
  rewrite bool_decide_eq_true_2 by done. cbn [negb].
  unfold mbind at 1, M_bind at 1. unfold mret at 1, M_ret at 1. reflexivity.
Qed.

Lemma main_from_dispatch_absent (s : State) :
  fs s !! "output" = None → makedirs_fault E "output" (fs s) = None →
  main E s =
    (logging_info "Starting all simulations in parallel.";;
     results ← executor_map (schedule E) 3 (run_contam E) SIMULATION_FILES;
     logging_info "All simulations completed. Summary:";;
     for_each results logging_info) (output_created s).
Proof.
  intros Hnone Hmk. unfold main. unfold mbind at 1, M_bind at 1. unfold os_path_exists.
  rewrite Hnone. rewrite bool_decide_eq_false_2 by (by intros [? ?]). cbn [negb].
  unfold mbind at 1, M_bind at 1. unfold mbind at 1, M_bind at 1.
  unfold os_makedirs. rewrite Hnone, Hmk. reflexivity.
Qed.

(** [main] when the output directory has to be made. *)
Lemma main_absent (s : State) :
  fs s !! "output" = None → makedirs_fault E "output" (fs s) = None →
  main E s = main E (output_created s).
Proof.
  intros Hnone Hmk.
  rewrite (main_from_dispatch_absent s Hnone Hmk).
  rewrite (main_from_dispatch_present (output_created s)); [done|].
  simpl. rewrite lookup_insert_eq. eauto.
Qed.

Lemma main_makedirs_raises (s : State) (e : Exception) :
  fs s !! "output" = None → makedirs_fault E "output" (fs s) = Some e →
  main E s = (Raise e, s).
Proof.
  intros Hnone Hmk.
  unfold main. unfold mbind at 1, M_bind at 1. unfold os_path_exists.
  rewrite Hnone. rewrite bool_decide_eq_false_2 by (by intros [? ?]). cbn [negb].
  unfold mbind at 1, M_bind at 1. unfold mbind at 1, M_bind at 1.
  unfold os_makedirs. by rewrite Hnone, Hmk.
Qed.
End MainMore.

(** ** The batch as a whole *)

Section ExecutorKeeps.
Context {A B : Type}.
Variable f : A → M B.
Hypothesis f_returns : ∀ a s, ∃ b, fst (f a s) = Return b.
Variable jobs : list A.
Variable Q : list (nat * A * outcome B) → State → Prop.
Hypothesis Q_finish :
  ∀ fin s i a, jobs !! i = Some a → Q fin s →
               Q (fin ++ [(i, a, fst (f a s))]) (snd (f a s)).

(** What every finished job re-establishes holds when the batch is over,
    for a completion log with one entry per job. *)
Lemma executor_map_keeps (sched : nat → nat) (max_workers : nat) (s : State) :
  (1 ≤ max_workers)%nat → Q [] s →
  ∃ fin, length fin = length jobs ∧
         Q fin (snd (executor_map sched max_workers f jobs s)).
Proof.
  intros Hw HQ.
  destruct (executor_map_spec f f_returns sched max_workers jobs s Hw)
    as (p & bs & s' & Hrun & Hmap & _ & Hperm & _).
  exists (finished p). split.
  - apply Permutation_length in Hperm.
    by rewrite length_map, length_seq in Hperm.
  - rewrite Hmap. simpl.
    exact (pool_run_keeps f max_workers jobs Q Q_finish (2 * length jobs) sched
             (submit_all jobs) p s s' (submit_all_inv f jobs) HQ Hrun).
Qed.
End ExecutorKeeps.

Section BatchMore.
Context `{Platform}.
Variable E : Env.

(** X7.  During a batch every argument vector handed to
    [subprocess.run] is the executable followed by the path of one job of
    the list, and there are at most as many launches as jobs: no job is
    launched twice and nothing else is ever launched. *)
Theorem batch_launches_only_jobs (sched : nat → nat) (pool_size : nat)
    (jobs : list string) (s : State) :
  (1 ≤ pool_size)%nat →
  ∃ launched : list (list string),
    invocations (snd (executor_map sched pool_size (run_contam E) jobs s)) =
      (invocations s ++ launched)%list ∧
    (length launched ≤ length jobs)%nat ∧
    Forall (batch_command E jobs) launched.
Proof.
  intros Hw.
  destruct (executor_map_keeps (run_contam E) (run_contam_returns E) jobs
              (λ fin st, ∃ launched : list (list string),
                 invocations st = (invocations s ++ launched)%list ∧
                 (length launched ≤ length fin)%nat ∧
                 Forall (batch_command E jobs) launched))
    with (sched := sched) (max_workers := pool_size) (s := s)
    as (fin & Hlen & launched & Hinv & Hle & Hall); try done.
  - intros fin st i a Hjob (launched & Hinv & Hle & Hall).
    destruct (run_contam_invocations_cases E a st) as [-> | ->].
    + exists launched. split; [done|]. split; [|done].
      rewrite length_app. simpl. lia.
    + exists (launched ++ [[CONTAM_EXE E; a]])%list. rewrite Hinv, <- app_assoc.
      split; [done|]. split; [rewrite !length_app; simpl; lia|].
      apply Forall_app. split; [done|]. constructor; [|constructor].
      exists a. split; [by eapply list_elem_of_lookup_2 | done].
  - exists []. rewrite app_nil_r. split; [done|]. split; [simpl; lia | constructor].
  - exists launched. split; [done|]. split; [lia|done].
Qed.

(** X10.  When the output directory is missing and cannot be made,
    [main] raises the fault at once: the state is untouched (nothing
    logged, nothing launched), and a script that got past its startup
    check ends with exit code 1. *)
Theorem output_directory_fault_is_fatal (s : State) (e : Exception) :
  fs s !! "output" = None → makedirs_fault E "output" (fs s) = Some e →
  main E s = (Raise e, s) ∧
  (open_fault E (path_join (cwd E) "execution.log") (fs s) = None →
   is_Some (fs s !! CONTAM_EXE E) →
   exit_code (fst (script E s)) = 1 ∧
   invocations (snd (script E s)) = invocations s ∧
   log (snd (script E s)) = []).
Proof.
  intros Hnone Hmk. split.
  - by apply main_makedirs_raises.
  - intros Hlog Hexe. rewrite (script_present E s Hlog Hexe).
    by rewrite (main_makedirs_raises E (fresh_log s) e Hnone Hmk).
Qed.

(** X11.  When the output directory is missing and can be made, [main]
    makes it before anything else and logs that it did; from there on
    the run is the run of [main] in a state that has the directory. *)
Theorem main_creates_output_directory (s : State) :
  fs s !! "output" = None → makedirs_fault E "output" (fs s) = None →
  main E s = main E (output_created s) ∧
  fs (output_created s) !! "output" = Some Dir ∧
  ∀ other, other ≠ "output" → fs (output_created s) !! other = fs s !! other.
Proof.
  intros Hnone Hmk. split; [by apply main_absent|]. simpl. split.
  - apply lookup_insert_eq.
  - intros other Hne. by apply lookup_insert_ne.
Qed.

(** X12.  The log file is opened in mode ['w']: once it is open, what
    the script does, returns and leaves in the log does not depend on
    the records of earlier runs. *)
Theorem script_forgets_old_log (s : State) (old : list LogRecord) :
  open_fault E (path_join (cwd E) "execution.log") (fs s) = None →
  script E (with_log s old) = script E s.
Proof.
  intros Hlog.
  destruct (fs s !! CONTAM_EXE E) as [nd|] eqn:Hnode.
  - assert (is_Some (fs s !! CONTAM_EXE E)) as Hex by eauto.
    rewrite (script_present E s Hlog Hex).
    by rewrite (script_present E (with_log s old) Hlog Hex).
  - rewrite (script_missing E s Hlog Hnode).
    by rewrite (script_missing E (with_log s old) Hlog Hnode).
Qed.
End BatchMore.

(** ** Concrete runs *)

Import Demo.

Example executable_bit_is_ignored :
  let E := env child_denied None (λ n, n) in
  let s := empty_state (exe false ∪ sims) in
  fs s !! CONTAM_EXE E = Some (File false "MZ") ∧
  exit_code (fst (script E s)) = 0 ∧
  invocations (snd (script E s)) =
    [ ["/opt/contam/contamx3.exe"; "simulations/sim1.prj"];
      ["/opt/contam/contamx3.exe"; "simulations/sim2.prj"] ].
Proof. vm_compute. done. Qed.

(** C7, as stated, fails: with an executable file that is present but
    not executable the startup check passes, the jobs are dispatched and
    each launch is refused by the operating system; the run ends with
    exit code 0. *)
Lemma startup_does_not_require_executable :
  ¬ @startup_requires_executable Posix.platform.
Proof.
  intros Hclaim.
  destruct (Hclaim (env child_denied None (λ n, n)) (empty_state (exe false ∪ sims)))
    as [Hcode _].
  - intros text. vm_compute. discriminate.
  - vm_compute in Hcode. discriminate.
Qed.



Lemma nonzero_exit_is_completed_witness :
  let E := env (child_ok 2) None (λ n, n) in
  let s := empty_state (exe true ∪ sims) in
  is_Some (fs s !! "simulations/sim1.prj") ∧
  child E [CONTAM_EXE E; "simulations/sim1.prj"] (fs s) =
    (inr {| returncode := 2; stdout := "OK"; stderr := "" |}, fs s) ∧
  2 ≠ 0 ∧
  fst (run_contam E "simulations/sim1.prj" s) =
    Return "sim1.prj: Completed in 1.25 seconds, Return Code: 2".
Proof.
  intros E s.
  assert (is_Some (fs s !! "simulations/sim1.prj")) as Hex
    by (exists (File false "p1"); vm_compute; reflexivity).
  assert (child E [CONTAM_EXE E; "simulations/sim1.prj"] (fs s) =
          (inr {| returncode := 2; stdout := "OK"; stderr := "" |}, fs s)) as Hchild
    by reflexivity.
  assert (2 ≠ 0) as Hrc by lia.
  split; [exact Hex|]. split; [exact Hchild|]. split; [exact Hrc|].
  exact (proj1 (nonzero_exit_is_completed E "simulations/sim1.prj" s _ _ Hex Hchild Hrc)).
Defined.


Lemma artifact_failure_keeps_result_witness :
  let E := env (child_ok 0) (Some disk_full) (λ n, n) in
  let s := empty_state (exe true ∪ sims) in
  let result := {| returncode := 0; stdout := "OK"; stderr := "" |} in
  is_Some (fs s !! "simulations/sim1.prj") ∧
  child E [CONTAM_EXE E; "simulations/sim1.prj"] (fs s) = (inr result, fs s) ∧
  write_result E (output_log_file (basename "simulations/sim1.prj"))
    (log_details [CONTAM_EXE E; "simulations/sim1.prj"] (elapsed E s) result) (fs s) =
    (Raise disk_full, <["output/sim1.log" := File false ""]> (fs s)) ∧
  fst (run_contam E "simulations/sim1.prj" s) =
    Return "sim1.prj: Completed in 1.25 seconds, Return Code: 0" ∧
  fst (run_contam (env (child_ok 0) None (λ n, n)) "simulations/sim1.prj" s) =
    fst (run_contam E "simulations/sim1.prj" s).
Proof.
  intros E s result.
  assert (is_Some (fs s !! "simulations/sim1.prj")) as Hex
    by (exists (File false "p1"); vm_compute; reflexivity).
  assert (child E [CONTAM_EXE E; "simulations/sim1.prj"] (fs s) = (inr result, fs s))
    as Hchild by reflexivity.
  assert (write_result E (output_log_file (basename "simulations/sim1.prj"))
            (log_details [CONTAM_EXE E; "simulations/sim1.prj"] (elapsed E s) result)
            (fs s) =
          (Raise disk_full, <["output/sim1.log" := File false ""]> (fs s))) as Hw
    by (vm_compute; reflexivity).
  split; [exact Hex|]. split; [exact Hchild|]. split; [exact Hw|].
  destruct (artifact_failure_keeps_result E "simulations/sim1.prj" s result _ _ _
              Hex Hchild Hw) as (Hres & _ & Hsame).
  split; [exact Hres|].
  apply Hsame; reflexivity.
Defined.

Lemma process_exit_code_witness :
  let E := env child_denied None (λ n, n) in
  (fs (empty_state sims) !! CONTAM_EXE E = None ∧
   exit_code (fst (script E (empty_state sims))) = 1) ∧
  (is_Some (fs (empty_state (exe true ∪ sims)) !! CONTAM_EXE E) ∧
   open_fault E (path_join (cwd E) "execution.log") (fs (empty_state (exe true ∪ sims))) =
     None ∧
   makedirs_fault E "output" (fs (empty_state (exe true ∪ sims))) = None ∧
   exit_code (fst (script E (empty_state (exe true ∪ sims)))) = 0).
Proof.
  intros E.
  assert (fs (empty_state sims) !! CONTAM_EXE E = None) as Hmiss
    by (vm_compute; reflexivity).
  assert (is_Some (fs (empty_state (exe true ∪ sims)) !! CONTAM_EXE E)) as Hex
    by (exists (File true "MZ"); vm_compute; reflexivity).
  split.
  - split; [exact Hmiss|].
    exact (proj1 (proj1 (process_exit_code E (empty_state sims)) Hmiss)).
  - split; [exact Hex|]. split; [reflexivity|]. split; [reflexivity|].
    exact (proj2 (process_exit_code E (empty_state (exe true ∪ sims)))
             Hex eq_refl (or_intror eq_refl)).
Defined.

Lemma startup_checks_existence_only_witness :
  let E := env child_denied None (λ n, n) in
  let s := empty_state (exe false ∪ sims) in
  open_fault E (path_join (cwd E) "execution.log") (fs s) = None ∧
  fs s !! CONTAM_EXE E = Some (File false "MZ") ∧
  script E s = main E (fresh_log s).
Proof.
  intros E s.
  assert (fs s !! CONTAM_EXE E = Some (File false "MZ")) as Hnd
    by (vm_compute; reflexivity).
  split; [reflexivity|]. split; [exact Hnd|].
  exact (proj2 (startup_checks_existence_only E s eq_refl) (File false "MZ") Hnd).
Defined.

Lemma artifact_path_witness :
  let E := env (child_ok 0) None (λ n, n) in
  let s := empty_state (exe true ∪ sims) in
  let result := {| returncode := 0; stdout := "OK"; stderr := "" |} in
  is_Some (fs s !! "simulations/sim1.prj") ∧
  child E [CONTAM_EXE E; "simulations/sim1.prj"] (fs s) = (inr result, fs s) ∧
  fst (write_result E (output_log_file (basename "simulations/sim1.prj"))
         (log_details [CONTAM_EXE E; "simulations/sim1.prj"] (elapsed E s) result)
         (fs s)) = Return tt ∧
  output_log_file (basename "simulations/sim1.prj") = "output/sim1.log".
Proof.
  intros E s result.
  assert (is_Some (fs s !! "simulations/sim1.prj")) as Hex
    by (exists (File false "p1"); vm_compute; reflexivity).
  assert (child E [CONTAM_EXE E; "simulations/sim1.prj"] (fs s) = (inr result, fs s))
    as Hchild by reflexivity.
  assert (fst (write_result E (output_log_file (basename "simulations/sim1.prj"))
                 (log_details [CONTAM_EXE E; "simulations/sim1.prj"] (elapsed E s) result)
                 (fs s)) = Return tt) as Hw
    by (vm_compute; reflexivity).
  split; [exact Hex|]. split; [exact Hchild|]. split; [exact Hw|].
  exact (proj2 (artifact_path E "simulations/sim1.prj" s result _ Hex Hchild Hw)
           "sim1" eq_refl eq_refl).
Defined.

Lemma artifact_sections_witness :
  let E := env (child_ok 0) None (λ n, n) in
  let s := empty_state (exe true ∪ sims) in
  let result := {| returncode := 0; stdout := "OK"; stderr := "" |} in
  is_Some (fs s !! "simulations/sim1.prj") ∧
  child E [CONTAM_EXE E; "simulations/sim1.prj"] (fs s) = (inr result, fs s) ∧
  fst (write_result E (output_log_file (basename "simulations/sim1.prj"))
         (log_details [CONTAM_EXE E; "simulations/sim1.prj"] (elapsed E s) result)
         (fs s)) = Return tt ∧
  ∃ x text,
    fs (snd (run_contam E "simulations/sim1.prj" s)) !! "output/sim1.log" =
      Some (File x text) ∧
    contains "OK" text = true ∧ contains "Return Code: 0" text = true.
Proof.
  intros E s result.
  assert (is_Some (fs s !! "simulations/sim1.prj")) as Hex
    by (exists (File false "p1"); vm_compute; reflexivity).
  assert (child E [CONTAM_EXE E; "simulations/sim1.prj"] (fs s) = (inr result, fs s))
    as Hchild by reflexivity.
  assert (fst (write_result E (output_log_file (basename "simulations/sim1.prj"))
                 (log_details [CONTAM_EXE E; "simulations/sim1.prj"] (elapsed E s) result)
                 (fs s)) = Return tt) as Hw
    by (vm_compute; reflexivity).
  split; [exact Hex|]. split; [exact Hchild|]. split; [exact Hw|].
  destruct (artifact_sections E "simulations/sim1.prj" s result _ Hex Hchild Hw)
    as (x & text & Hfile & _ & Hok).
  exists x, text. split; [exact Hfile|]. apply Hok; reflexivity.
Defined.

Example artifact_text_sim1 :
  let E := env (child_ok 0) None (λ n, n) in
  fs (snd (run_contam E "simulations/sim1.prj" (empty_state (exe true ∪ sims))))
    !! "output/sim1.log" =
  Some (File false
    "Command: /opt/contam/contamx3.exe simulations/sim1.prj
Elapsed Time: 1.25 seconds
Return Code: 0
STDOUT:
OK
STDERR:

").
Proof. vm_compute. reflexivity. Qed.

(** All three jobs are started, then they finish last to first; the
    results still come back in the order of the job list. *)
Example reversed_completion_order :
  let sched := λ n : nat, match n with
                          | 0 | 1 | 2 => 0
                          | 3 => 3
                          | 4 => 2
                          | _ => 1
                          end%nat in
  let E := env (child_ok 0) None sched in
  let s := empty_state (exe true ∪ sims) in
  (∃ p s', executor_run sched 3 (run_contam E) SIMULATION_FILES s = (Return p, s') ∧
           map idx (finished p) = [2; 1; 0]%nat) ∧
  fst (executor_map sched 3 (run_contam E) SIMULATION_FILES s) =
    Return [ "sim1.prj: Completed in 1.25 seconds, Return Code: 0";
             "sim2.prj: Completed in 1.25 seconds, Return Code: 0";
             "sim3.prj: File not found" ].
Proof.
  split.
  - eexists _, _. split; [vm_compute; reflexivity|]. reflexivity.
  - vm_compute. reflexivity.
Qed.

(** ** Concrete runs for the further properties *)

Lemma run_contam_launches_once_witness :
  let E := env child_denied None (λ n, n) in
  let s := empty_state (exe false ∪ sims) in
  is_Some (fs s !! "simulations/sim2.prj") ∧
  invocations (snd (run_contam E "simulations/sim2.prj" s)) =
    [["/opt/contam/contamx3.exe"; "simulations/sim2.prj"]].
Proof.
  intros E s.
  assert (is_Some (fs s !! "simulations/sim2.prj")) as Hex
    by (exists (File false "p2"); vm_compute; reflexivity).
  split; [exact Hex|].
  exact (proj1 (run_contam_launches_once E "simulations/sim2.prj" s Hex)).
Defined.

Lemma launch_fault_writes_no_artifact_witness :
  let E := env child_denied None (λ n, n) in
  let s := empty_state (exe false ∪ sims) in
  is_Some (fs s !! "simulations/sim1.prj") ∧
  child E [CONTAM_EXE E; "simulations/sim1.prj"] (fs s) =
    (inl {| exc_class := PermissionError; exc_str := "[Errno 13] Permission denied" |},
     fs s) ∧
  fs (snd (run_contam E "simulations/sim1.prj" s)) = fs s.
Proof.
  intros E s.
  assert (is_Some (fs s !! "simulations/sim1.prj")) as Hex
    by (exists (File false "p1"); vm_compute; reflexivity).
  assert (child E [CONTAM_EXE E; "simulations/sim1.prj"] (fs s) =
          (inl {| exc_class := PermissionError;
                  exc_str := "[Errno 13] Permission denied" |}, fs s)) as Hchild
    by reflexivity.
  split; [exact Hex|]. split; [exact Hchild|].
  exact (proj1 (launch_fault_writes_no_artifact E "simulations/sim1.prj" s _ _
                  Hex Hchild)).
Defined.

Lemma artifact_keeps_name_without_prj_witness :
  contains ".prj" "model.txt" = false ∧
  output_log_file "model.txt" = "output/model.txt".
Proof.
  split; [reflexivity|].
  exact (artifact_keeps_name_without_prj "model.txt" eq_refl).
Defined.

Lemma pool_never_exceeds_workers_witness :
  (1 ≤ 2)%nat ∧
  ∃ (p : Pool string string) (s' : State),
    pool_run 2 (run_contam (env (child_ok 0) None (λ _, 0%nat))) (λ _, 0%nat) 2
      (submit_all SIMULATION_FILES) (empty_state (exe true ∪ sims)) = (Return p, s') ∧
    (length (running p) ≤ 2)%nat.
Proof.
  split; [lia|].
  apply (pool_never_exceeds_workers (run_contam (env (child_ok 0) None (λ _, 0%nat)))
           2 SIMULATION_FILES (λ _, 0%nat) 2 (empty_state (exe true ∪ sims))).
  lia.
Defined.

Lemma batch_launches_only_jobs_witness :
  let E := env (child_ok 0) None (λ n, n) in
  (1 ≤ 3)%nat ∧
  ∃ launched : list (list string),
    invocations (snd (executor_map (λ n, n) 3 (run_contam E) SIMULATION_FILES
                        (empty_state (exe true ∪ sims)))) = launched ∧
    (length launched ≤ 3)%nat.
Proof.
  intros E. split; [lia|].
  destruct (batch_launches_only_jobs E (λ n, n) 3 SIMULATION_FILES
              (empty_state (exe true ∪ sims))) as (launched & Hinv & Hlen & _); [lia|].
  exists launched. split; [exact Hinv | exact Hlen].
Defined.

Lemma output_directory_fault_is_fatal_witness :
  let E := env_read_only (child_ok 0) (λ n, n) in
  let s := empty_state (exe true ∪ sims) in
  fs s !! "output" = None ∧
  makedirs_fault E "output" (fs s) = Some read_only ∧
  main E s = (Raise read_only, s).
Proof.
  intros E s.
  assert (fs s !! "output" = None) as Hnone by (vm_compute; reflexivity).
  split; [exact Hnone|]. split; [reflexivity|].
  exact (proj1 (output_directory_fault_is_fatal E s read_only Hnone eq_refl)).
Defined.

Lemma main_creates_output_directory_witness :
  let E := env (child_ok 0) None (λ n, n) in
  let s := empty_state (exe true ∪ sims) in
  fs s !! "output" = None ∧
  makedirs_fault E "output" (fs s) = None ∧
  main E s = main E (output_created s).
Proof.
  intros E s.
  assert (fs s !! "output" = None) as Hnone by (vm_compute; reflexivity).
  split; [exact Hnone|]. split; [reflexivity|].
  exact (proj1 (main_creates_output_directory E s Hnone eq_refl)).
Defined.

Lemma script_forgets_old_log_witness :
  let E := env (child_ok 0) None (λ n, n) in
  let s := empty_state (exe true ∪ sims) in
  open_fault E (path_join (cwd E) "execution.log") (fs s) = None ∧
  script E (with_log s [stale]) = script E s.
Proof.
  intros E s. split; [reflexivity|].
  exact (script_forgets_old_log E s [stale] eq_refl).
Defined.


(** Exit codes 2 and 3 are reported as 2 and 3. *)
Example return_code_is_reported :
  let s := empty_state (exe true ∪ sims) in
  fst (run_contam (env (child_ok 2) None (λ n, n)) "simulations/sim2.prj" s) =
    Return "sim2.prj: Completed in 1.25 seconds, Return Code: 2" ∧
  fst (run_contam (env (child_ok 3) None (λ n, n)) "simulations/sim2.prj" s) =
    Return "sim2.prj: Completed in 1.25 seconds, Return Code: 3" ∧
  fst (run_contam (env (child_ok (-1)) None (λ n, n)) "simulations/sim2.prj" s) =
    Return "sim2.prj: Completed in 1.25 seconds, Return Code: -1".
Proof. vm_compute. done. Qed.
